(** * Electricity tariff engine: season calendar, tariff resolver, cost
      accumulator, alert evaluator, history buffer and settings API.

    A shallow embedding of [app.js], [api.js] and
    [drivers/tariff-meter/device.js].  JavaScript numbers that take part in
    cost arithmetic are IEEE 754 binary64 values ([PrimFloat.float]); calendar
    fields and minute counts, which the code only ever adds, subtracts and
    compares on small integers, are [Z]; the settings store and the body of a
    PUT request are finite maps from keys to JavaScript values. *)

From Stdlib Require Import ZArith Lia Floats String Ascii List Bool DecimalString.
From Stdlib Require Import Sorted Permutation.
From stdpp Require Import base option list gmap strings.

Set Warnings "-inexact-float".

Local Open Scope string_scope.
Local Open Scope Z_scope.

(** ** JavaScript values and primitives *)

(** A season definition as the settings store holds it.  [dayStart] and
    [dayEnd] may be missing from the object ([None]). *)
Record Season := mkSeason {
  name : string;
  startMonth : Z;
  startDay : Z;
  endMonth : Z;
  endDay : Z;
  dayStart : option string;
  dayEnd : option string
}.

Module JS.

(** The values a setting or a JSON body field can hold.  [undefined] is not
    a value here: a field that is absent from an object is absent from the
    map that models it. *)
Inductive jsval :=
| VNull
| VBool (b : bool)
| VNum (x : float)
| VStr (s : string)
| VSeasons (l : list Season).

(** ToBoolean on numbers: [0], [-0] and [NaN] are falsy. *)
Definition truthy_num (x : float) : bool :=
  negb (PrimFloat.is_zero x || PrimFloat.is_nan x).

(** ToBoolean on strings: only the empty string is falsy. *)
Definition truthy_str (s : string) : bool :=
  negb (String.eqb s "").

(** ToBoolean.  An array is truthy, also when it is empty. *)
Definition truthy (v : jsval) : bool :=
  match v with
  | VNull => false
  | VBool b => b
  | VNum x => truthy_num x
  | VStr s => truthy_str s
  | VSeasons _ => true
  end.

(** [a || b]. *)
Definition or (a b : jsval) : jsval := if truthy a then a else b.

(** [s || d] for a string field [s] that may be missing. *)
Definition str_or (s : option string) (d : string) : string :=
  match s with
  | Some s' => if truthy_str s' then s' else d
  | None => d
  end.

(** ToNumber, on the values whose conversion needs no parsing.  [None]:
    the conversion of a string or an array, which is not modelled. *)
Definition ToNumber (v : jsval) : option float :=
  match v with
  | VNull => Some 0%float
  | VBool b => Some (if b then 1%float else 0%float)
  | VNum x => Some x
  | VStr _ => None
  | VSeasons _ => None
  end.

(** [String(n)] for an integer [n]. *)
Definition String_of (n : Z) : string :=
  NilEmpty.string_of_int (Z.to_int n).

Fixpoint repeat_char (c : ascii) (n : nat) : string :=
  match n with
  | O => ""
  | S n' => String c (repeat_char c n')
  end.

(** [s.padStart(n, c)] for a one-character filler [c]. *)
Definition padStart (s : string) (n : nat) (c : ascii) : string :=
  (repeat_char c (n - String.length s) ++ s)%string.

(** String comparison [a < b] and [a >= b]: lexicographic on the code units
    (the strings compared here are ASCII). *)
Definition str_lt (a b : string) : bool :=
  match String.compare a b with Lt => true | _ => false end.

Definition str_ge (a b : string) : bool := negb (str_lt a b).

(** [s.split(sep)] for a one-character separator. *)
Fixpoint split_aux (sep : ascii) (acc : string) (s : string) : list string :=
  match s with
  | EmptyString => [acc]
  | String c s' =>
      if Ascii.eqb c sep then acc :: split_aux sep "" s'
      else split_aux sep (acc ++ String c "")%string s'
  end.

Definition split (sep : ascii) (s : string) : list string :=
  split_aux sep "" s.

Definition digit_of (c : ascii) : option Z :=
  let n := Z.of_N (N_of_ascii c) in
  if (48 <=? n) && (n <=? 57) then Some (n - 48) else None.

Fixpoint digits_value (acc : Z) (s : string) : option Z :=
  match s with
  | EmptyString => Some acc
  | String c s' =>
      match digit_of c with
      | Some d => digits_value (10 * acc + d) s'
      | None => None
      end
  end.

(** [Number(s)] on a non-empty string of decimal digits.  [None]: any other
    string (where JavaScript gives [NaN], or parses a sign, a fraction, an
    exponent, blanks or a radix prefix), which is not modelled. *)
Definition Number_of (s : string) : option Z :=
  match s with
  | EmptyString => None
  | _ => digits_value 0 s
  end.

End JS.

(** ** The host's local clock *)

(** One reading of the host clock: [Date.now()] and the local-time getters of
    [new Date()].  [getMonth] is zero-based, as in JavaScript. *)
Record Clock := mkClock {
  now_ms : float;
  getFullYear : Z;
  getMonth : Z;
  getDate : Z;
  getHours : Z;
  getMinutes : Z
}.

(** [toDateString()] names the local calendar day; the key used here is the
    triple it is a function of. *)
Definition DateKey : Type := Z * Z * Z.

Definition toDateString (c : Clock) : DateKey :=
  (getFullYear c, getMonth c, getDate c).

Definition DateKey_eqb (a b : DateKey) : bool :=
  match a, b with
  | (y1, m1, d1), (y2, m2, d2) => (y1 =? y2) && (m1 =? m2) && (d1 =? d2)
  end.

(** The two tariffs, ['day'] and ['night']. *)
Inductive Tariff := day | night.

Definition Tariff_eqb (a b : Tariff) : bool :=
  match a, b with
  | day, day | night, night => true
  | _, _ => false
  end.

(** The settings store: [homey.settings]. *)
Abbreviation Settings := (gmap string JS.jsval).

(** [homey.settings.get(key)]: the stored value, [null] when unset. *)
Definition settings_get (st : Settings) (key : string) : JS.jsval :=
  default JS.VNull (st !! key).

(** The [seasons] setting read as [settings.get('seasons') || []].  [None]:
    a truthy value that is not a list of seasons, which is not modelled. *)
Definition settings_seasons (st : Settings) : option (list Season) :=
  match JS.or (settings_get st "seasons") (JS.VSeasons []) with
  | JS.VSeasons l => Some l
  | _ => None
  end.

(** [hh:mm] of a clock reading, each part padded to two digits. *)
Definition currentTime (c : Clock) : string :=
  (JS.padStart (JS.String_of (getHours c)) 2 "0" ++ ":" ++
   JS.padStart (JS.String_of (getMinutes c)) 2 "0")%string.

(** [hh:mm] strings split at the colon, each part through [Number]:
    [s.split(':').map(Number)] destructured into its first two elements.
    [None]: a part is missing or is not a string of digits. *)
Definition hour_minute (s : string) : option (Z * Z) :=
  match map JS.Number_of (JS.split ":" s) with
  | h :: m :: _ => h' ← h; m' ← m; Some (h', m')
  | _ => None
  end.

(** ** app.js *)

Module App.

(** [this.powerDevices[deviceId] = { name, power }]. *)
Record PowerEntry := mkPowerEntry {
  entry_name : string;
  entry_power : float
}.

(** An element of [getPowerDevices()]: [{ id, name, power }]. *)
Record PowerDevice := mkPowerDevice {
  id : string;
  device_name : string;
  power : float
}.

(** An element of [this.history]: [{ t, power, costH, costDay }]. *)
Record HistorySample := mkHistorySample {
  t : float;
  sample_power : float;
  costH : float;
  costDay : float
}.

(** The fields of the app object that the engine reads or writes.
    [powerDevices] is [None] until [initHomeyAPI] has created the object;
    its entries are kept in the order in which [Object.entries] lists
    them.  The flow trigger cards are registered by [onInit] before any
    device runs and are not part of the state. *)
Record State := mkState {
  apiReady : bool;
  powerDevices : option (list (string * PowerEntry));
  history : list HistorySample
}.

Definition getPowerDevices (app : State) : list PowerDevice :=
  match powerDevices app with
  | None => []
  | Some entries =>
      map (fun '(i, data) => mkPowerDevice i (entry_name data) (entry_power data))
          entries
  end.

Definition isDateInSeason (month day : Z) (season : Season) : bool :=
  if startMonth season >? endMonth season then
    ((month >? startMonth season) ||
     ((month =? startMonth season) && (day >=? startDay season))) ||
    ((month <? endMonth season) ||
     ((month =? endMonth season) && (day <=? endDay season)))
  else
    ((month >? startMonth season) ||
     ((month =? startMonth season) && (day >=? startDay season))) &&
    ((month <? endMonth season) ||
     ((month =? endMonth season) && (day <=? endDay season))).

(** The first season of the list that holds the date, else the first
    season, else [null]. *)
Definition getCurrentSeason (st : Settings) (now : Clock)
  : option (option Season) :=
  let month := getMonth now + 1 in
  let day := getDate now in
  seasons ← settings_seasons st;
  match find (isDateInSeason month day) seasons with
  | Some season => Some (Some season)
  | None => Some (head seasons)
  end.

Definition getCurrentTariff (st : Settings) (now : Clock) : option Tariff :=
  season ← getCurrentSeason st now;
  match season with
  | None => Some day
  | Some season =>
      let dayStart := JS.str_or (dayStart season) "06:00" in
      let dayEnd := JS.str_or (dayEnd season) "22:00" in
      if JS.str_ge (currentTime now) dayStart && JS.str_lt (currentTime now) dayEnd
      then Some day
      else Some night
  end.

Definition getCurrentRate (st : Settings) (now : Clock) : option JS.jsval :=
  tariff ← getCurrentTariff st now;
  match tariff with
  | day => Some (JS.or (settings_get st "dayRate") (JS.VNum 0.12))
  | night => Some (JS.or (settings_get st "nightRate") (JS.VNum 0.06))
  end.

(** [a.slice(-n)]: the last [n] elements. *)
Definition slice_last {A} (n : nat) (a : list A) : list A :=
  drop (length a - n) a.

Definition recordHistory (app : State) (now : Clock)
    (totalPower costPerHour costToday : float) : State :=
  let history :=
    (history app ++
     [mkHistorySample (now_ms now) totalPower costPerHour costToday])%list in
  let maxEntries := 1440%nat in
  mkState (apiReady app) (powerDevices app)
    (if (maxEntries <? length history)%nat
     then slice_last maxEntries history
     else history).

End App.

(** ** drivers/tariff-meter/device.js *)

Module Device.

Import App.

(** The payloads handed to the flow trigger cards. *)
Inductive Event :=
| TariffChanged (previous_tariff new_tariff : Tariff) (rate : JS.jsval)
| CostThresholdExceeded (cost_per_hour total_power threshold : float)
| DailyCostExceeded (cost_today threshold : float)
| HighPowerDevice (name : string) (device_power cost_per_hour : float).

(** The fields [onInit] creates on the device object. *)
Record State := mkState {
  lastTariff : option Tariff;
  tariffChangesToday : Z;
  lastResetDate : DateKey;
  costToday : float;
  lastCostUpdate : float;
  devicePowers : list PowerDevice
}.

Definition getDevicesWithPower (app : App.State) : list PowerDevice :=
  if apiReady app then getPowerDevices app else [].

Definition isDateInSeason (month day : Z) (season : Season) : bool :=
  if startMonth season >? endMonth season then
    ((month >? startMonth season) ||
     ((month =? startMonth season) && (day >=? startDay season))) ||
    ((month <? endMonth season) ||
     ((month =? endMonth season) && (day <=? endDay season)))
  else
    ((month >? startMonth season) ||
     ((month =? startMonth season) && (day >=? startDay season))) &&
    ((month <? endMonth season) ||
     ((month =? endMonth season) && (day <=? endDay season))).

Definition getCurrentSeason (st : Settings) (now : Clock)
  : option (option Season) :=
  let month := getMonth now + 1 in
  let day := getDate now in
  seasons ← settings_seasons st;
  match find (isDateInSeason month day) seasons with
  | Some season => Some (Some season)
  | None => Some (head seasons)
  end.

Definition getCurrentTariff (season : option Season) (now : Clock) : Tariff :=
  match season with
  | None => day
  | Some season =>
      if JS.str_ge (currentTime now) (JS.str_or (dayStart season) "06:00") &&
         JS.str_lt (currentTime now) (JS.str_or (dayEnd season) "22:00")
      then day
      else night
  end.

Definition getCurrentRate (st : Settings) (tariff : Tariff) : JS.jsval :=
  match tariff with
  | day => JS.or (settings_get st "dayRate") (JS.VNum 0.12)
  | night => JS.or (settings_get st "nightRate") (JS.VNum 0.06)
  end.

(** [None]: a boundary string that [hour_minute] does not read. *)
Definition getMinutesUntilChange (season : option Season)
    (currentTariff : Tariff) (now : Clock) : option Z :=
  match season with
  | None => Some 0
  | Some season =>
      let currentTotalMinutes := getHours now * 60 + getMinutes now in
      '(dayStartHour, dayStartMinute) ←
        hour_minute (JS.str_or (dayStart season) "06:00");
      '(dayEndHour, dayEndMinute) ←
        hour_minute (JS.str_or (dayEnd season) "22:00");
      let dayStartTotalMinutes := dayStartHour * 60 + dayStartMinute in
      let dayEndTotalMinutes := dayEndHour * 60 + dayEndMinute in
      match currentTariff with
      | day => Some (dayEndTotalMinutes - currentTotalMinutes)
      | night =>
          if currentTotalMinutes >=? dayEndTotalMinutes
          then Some ((24 * 60 - currentTotalMinutes) + dayStartTotalMinutes)
          else Some (dayStartTotalMinutes - currentTotalMinutes)
      end
  end.

(** [l.sort((a, b) => b.power - a.power)]: the stable sort by descending
    power, as an insertion sort that puts an element before the first one
    that is not greater. *)
Fixpoint insert_desc (d : PowerDevice) (l : list PowerDevice) : list PowerDevice :=
  match l with
  | [] => [d]
  | x :: l' =>
      if PrimFloat.leb (power x) (power d) then d :: x :: l'
      else x :: insert_desc d l'
  end.

Definition sort_desc (l : list PowerDevice) : list PowerDevice :=
  foldr insert_desc [] l.

Definition checkAlerts (dev : State) (costPerHour costToday currentRate : float)
  : list Event :=
  ((if PrimFloat.ltb 0 costPerHour then
      let totalPower :=
        fold_left (fun sum d => (sum + power d)%float) (devicePowers dev) 0%float in
      [CostThresholdExceeded costPerHour totalPower costPerHour]
    else []) ++
   (if PrimFloat.ltb 0 costToday then [DailyCostExceeded costToday costToday]
    else []) ++
   map (fun device =>
          let deviceCostPerHour := (power device / 1000 * currentRate)%float in
          HighPowerDevice (device_name device) (power device) deviceCostPerHour)
       (devicePowers dev))%list.

(** One run of [updateCostTracking] at the clock reading [clock]: the new
    device state, the app with the recorded history sample, and the events
    triggered.  [recorded] is the reading [recordHistory] takes for itself
    when it is called, after the awaited capability writes.  The run writes
    its fields before the first of those writes; what it reads after them
    ([costToday] and the snapshot, for the history sample and the alerts) is
    what it wrote, no second run of [updateCostTracking] being under way.
    [None]: a setting outside the model.  The capability writes and the log
    lines are left out; each write catches its own failure and none feeds
    back into the state. *)
Definition updateCostTracking (st : Settings) (app : App.State)
    (clock recorded : Clock) (dev : State)
  : option (State * App.State * list Event) :=
  let now := now_ms clock in
  let timeDelta := ((now - lastCostUpdate dev) / 1000 / 3600)%float in
  season ← getCurrentSeason st clock;
  currentRate ← JS.ToNumber (getCurrentRate st (getCurrentTariff season clock));
  let powerDevices := getDevicesWithPower app in
  let totalPower :=
    fold_left (fun total device =>
                 if PrimFloat.ltb 0 (power device)
                 then (total + power device)%float else total)
              powerDevices 0%float in
  let devicePowers :=
    sort_desc (List.filter (fun d => PrimFloat.ltb 0 (power d)) powerDevices) in
  let costIncrement := (totalPower / 1000 * timeDelta * currentRate)%float in
  let todayString := toDateString clock in
  let reset := negb (DateKey_eqb (lastResetDate dev) todayString) in
  let costToday := ((if reset then 0 else costToday dev) + costIncrement)%float in
  let lastResetDate := if reset then todayString else lastResetDate dev in
  let costPerHour := (totalPower / 1000 * currentRate)%float in
  let dev' := mkState (lastTariff dev) (tariffChangesToday dev) lastResetDate
                      costToday now devicePowers in
  let app' := recordHistory app recorded totalPower costPerHour costToday in
  Some (dev', app', checkAlerts dev' costPerHour costToday currentRate).

Definition trackTariffChanges (st : Settings) (currentTariff : Tariff)
    (now : Clock) (dev : State) : State * list Event :=
  let todayString := toDateString now in
  let reset := negb (DateKey_eqb (lastResetDate dev) todayString) in
  let changes := if reset then 0 else tariffChangesToday dev in
  let lastResetDate := if reset then todayString else lastResetDate dev in
  match lastTariff dev with
  | Some previous =>
      if negb (Tariff_eqb previous currentTariff) then
        (mkState (Some currentTariff) (changes + 1) lastResetDate
                 (costToday dev) (lastCostUpdate dev) (devicePowers dev),
         [TariffChanged previous currentTariff (getCurrentRate st currentTariff)])
      else
        (mkState (Some currentTariff) changes lastResetDate
                 (costToday dev) (lastCostUpdate dev) (devicePowers dev), [])
  | None =>
      (mkState (Some currentTariff) changes lastResetDate
               (costToday dev) (lastCostUpdate dev) (devicePowers dev), [])
  end.

(** One run of [updateTariffValues]: of what it computes, only
    [trackTariffChanges] changes the state or triggers an event; the rest
    goes to the capabilities, which are left out. *)
Definition updateTariffValues (st : Settings) (now : Clock) (dev : State)
  : option (State * list Event) :=
  season ← getCurrentSeason st now;
  let tariff := getCurrentTariff season now in
  Some (trackTariffChanges st tariff now dev).

(** The callback of the one-minute interval set up by [onInit]:
    [updateTariffValues] and then [updateCostTracking], each with its own
    reading of the clock, and [recordHistory] with a third. *)
Definition interval_tick (st : Settings) (app : App.State)
    (clock1 clock2 clock3 : Clock) (dev : State)
  : option (State * App.State * list Event) :=
  '(dev1, events1) ← updateTariffValues st clock1 dev;
  '(dev2, app2, events2) ← updateCostTracking st app clock2 clock3 dev1;
  Some (dev2, app2, (events1 ++ events2)%list).

(** The fields as [onInit] sets them, before its first
    [updateTariffValues]. *)
Definition init_state (now : Clock) : State :=
  mkState None 0 (toDateString now) 0%float (now_ms now) [].

Definition onInit (st : Settings) (now : Clock) : option (State * list Event) :=
  updateTariffValues st now (init_state now).

End Device.

(** ** api.js *)

Module Api.

(** The object [getSettings] returns. *)
Record SettingsView := mkSettingsView {
  currency : JS.jsval;
  dayRate : JS.jsval;
  nightRate : JS.jsval;
  seasons : JS.jsval
}.

Definition getSettings (homey : Settings) : SettingsView :=
  mkSettingsView
    (JS.or (settings_get homey "currency") (JS.VStr "EUR"))
    (JS.or (settings_get homey "dayRate") (JS.VNum 0.12))
    (JS.or (settings_get homey "nightRate") (JS.VNum 0.06))
    (JS.or (settings_get homey "seasons") (JS.VSeasons [])).

(** [if (body.key !== undefined) homey.settings.set(key, body.key)]: a key
    absent from the body reads as [undefined]. *)
Definition set_if_defined (body : gmap string JS.jsval) (key : string)
    (homey : Settings) : Settings :=
  match body !! key with
  | Some v => <[key := v]> homey
  | None => homey
  end.

(** The new settings store and the [success] field of the response. *)
Definition putSettings (homey : Settings) (body : gmap string JS.jsval)
  : Settings * bool :=
  let homey := set_if_defined body "currency" homey in
  let homey := set_if_defined body "dayRate" homey in
  let homey := set_if_defined body "nightRate" homey in
  let homey := set_if_defined body "seasons" homey in
  (homey, true).

End Api.

(** ** app.js: settings defaults, top consumers, tariff monitor, chart data,
       device table *)

Module AppRest.

Import App.

(** The seasons [initializeSettings] stores when none are set. *)
Definition default_seasons : list Season :=
  [ mkSeason "Winter" 11 1 3 31 (Some "06:00") (Some "22:00");
    mkSeason "Summer" 4 1 10 31 (Some "07:00") (Some "23:00") ].

(** [if (settings.get(key) === null) settings.set(key, value)]. *)
Definition set_if_null (key : string) (value : JS.jsval) (settings : Settings)
  : Settings :=
  match settings_get settings key with
  | JS.VNull => <[key := value]> settings
  | _ => settings
  end.

Definition initializeSettings (settings : Settings) : Settings :=
  let settings := set_if_null "dayRate" (JS.VNum 0.12) settings in
  let settings := set_if_null "nightRate" (JS.VNum 0.06) settings in
  let settings := set_if_null "seasons" (JS.VSeasons default_seasons) settings in
  set_if_null "currency" (JS.VStr "EUR") settings.

(** [devices.sort((a, b) => b.power - a.power).slice(0, 5)] over all the
    tracked devices.  The powers stored by [initHomeyAPI] are [value || 0],
    never [NaN]; with a [NaN] the comparator is not an order and the result
    of [sort] is not determined. *)
Definition getTopConsumers (app : State) : list PowerDevice :=
  take 5 (Device.sort_desc (getPowerDevices app)).

(** The callback of the one-minute interval of [startTariffMonitor], on the
    field [currentTariff] that it reads and writes: the new value of the
    field and the events triggered. *)
Definition tariffMonitor (st : Settings) (now : Clock) (currentTariff : Tariff)
  : option (Tariff * list Device.Event) :=
  newTariff ← getCurrentTariff st now;
  if negb (Tariff_eqb currentTariff newTariff) then
    rate ← getCurrentRate st now;
    Some (newTariff, [Device.TariffChanged currentTariff newTariff rate])
  else Some (currentTariff, []).

(** The [current] object of [getChartData]. *)
Record ChartCurrent := mkChartCurrent {
  chart_tariff : Tariff;
  chart_rate : JS.jsval;
  chart_currency : JS.jsval;
  chart_totalPower : float;
  chart_costPerHour : float
}.

(** [getChartData]: the [current] object and the history.  [None]: a setting
    outside the model. *)
Definition getChartData (st : Settings) (app : State) (now : Clock)
  : option (ChartCurrent * list HistorySample) :=
  tariff ← getCurrentTariff st now;
  rate ← getCurrentRate st now;
  let currency := JS.or (settings_get st "currency") (JS.VStr "EUR") in
  let totalPower :=
    fold_left (fun sum d => (sum + power d)%float) (getPowerDevices app) 0%float in
  rate_number ← JS.ToNumber rate;
  Some (mkChartCurrent tariff rate currency totalPower
          (totalPower / 1000 * rate_number)%float,
        history app).

(** [value || 0] for a capability value that is a number, or missing. *)
Definition value_or_zero (value : option float) : float :=
  match value with
  | Some x => if JS.truthy_num x then x else 0%float
  | None => 0%float
  end.

(** The array index a property key names, if it names one: the key is the
    decimal numeral, without sign or leading zero, of an integer below
    [2^32 - 1]. *)
Definition array_index (key : string) : option Z :=
  match key with
  | EmptyString => None
  | String c rest =>
      if Ascii.eqb c "0" && negb (String.eqb rest "") then None
      else
        n ← JS.digits_value 0 key;
        if n <? 4294967295 then Some n else None
  end.

(** The entry the table lists under [deviceId]. *)
Fixpoint table_get (deviceId : string) (table : list (string * PowerEntry))
  : option PowerEntry :=
  match table with
  | [] => None
  | (key, entry) :: rest =>
      if String.eqb key deviceId then Some entry else table_get deviceId rest
  end.

(** Whether the key [key] of an object stays before the new key [deviceId]
    when the keys are listed: every key does when the new key is no array
    index, and only the smaller array indices do when it is one. *)
Definition listed_before (key deviceId : string) : bool :=
  match array_index deviceId with
  | None => true
  | Some n =>
      match array_index key with
      | Some m => m <? n
      | None => false
      end
  end.

(** A key the object has: the value is replaced and the key keeps its
    place. *)
Fixpoint table_replace (deviceId : string) (entry : PowerEntry)
    (table : list (string * PowerEntry)) : list (string * PowerEntry) :=
  match table with
  | [] => []
  | (key, old) :: rest =>
      if String.eqb key deviceId then (key, entry) :: rest
      else (key, old) :: table_replace deviceId entry rest
  end.

(** A key the object does not have: [Object.entries] lists the array
    indices first, in ascending order, and then the other keys in the order
    in which they were created. *)
Fixpoint table_add (deviceId : string) (entry : PowerEntry)
    (table : list (string * PowerEntry)) : list (string * PowerEntry) :=
  match table with
  | [] => [(deviceId, entry)]
  | (key, old) :: rest =>
      if listed_before key deviceId
      then (key, old) :: table_add deviceId entry rest
      else (deviceId, entry) :: (key, old) :: rest
  end.

(** [table[deviceId] = entry] on the device table, kept as the list
    [Object.entries] gives.  An assignment to the key [__proto__] goes to
    the setter the object inherits, which changes the prototype and creates
    no entry. *)
Definition table_set (deviceId : string) (entry : PowerEntry)
    (table : list (string * PowerEntry)) : list (string * PowerEntry) :=
  if String.eqb deviceId "__proto__" then table
  else
    match table_get deviceId table with
    | Some _ => table_replace deviceId entry table
    | None => table_add deviceId entry table
    end.

(** A device as [api.devices.getDevices()] lists it: its id, its name, its
    capabilities and the value of its [measure_power] capability, if any. *)
Record HomeyDevice := mkHomeyDevice {
  homey_id : string;
  homey_name : string;
  capabilities : list string;
  measure_power_value : option float
}.

(** [initHomeyAPI] on the devices the API lists, in the order in which
    [Object.entries] gives them.  With no device listed the table is left
    empty and [apiReady] as it was (a retry is scheduled), which is also the
    state after a failed call. *)
Definition initHomeyAPI (devices : list HomeyDevice) (app : State) : State :=
  match devices with
  | [] => mkState (apiReady app) (Some []) (history app)
  | _ =>
      mkState true
        (Some (fold_left
                 (fun table device =>
                    if bool_decide ("measure_power" ∈ capabilities device)
                    then table_set (homey_id device)
                           (mkPowerEntry (homey_name device)
                              (value_or_zero (measure_power_value device)))
                           table
                    else table)
                 devices []))
        (history app)
  end.

(** The callback [initHomeyAPI] registers for the [measure_power] capability
    of the device [deviceId], called with a new value.  [None]: there is no
    table to assign to and the callback throws, which cannot happen once
    [initHomeyAPI] has created the table. *)
Definition onPowerChange (deviceId name : string) (value : option float)
    (app : State) : option State :=
  table ← powerDevices app;
  Some (mkState (apiReady app)
          (Some (table_set deviceId (mkPowerEntry name (value_or_zero value))
                   table))
          (history app)).

End AppRest.

(** ** drivers/tariff-meter/device.js: top consumers, hours remaining *)

Module DeviceRest.

Import App.

(** [a.slice(0, end)] for an integer [end]: a negative [end] counts from the
    end of the array. *)
Definition slice_to {A} (end_ : Z) (a : list A) : list A :=
  take (Z.to_nat (if end_ <? 0 then Z.of_nat (length a) + end_ else end_)) a.

(** [getTopConsumers(limit)]; a call without argument has [limit = 5]. *)
Definition getTopConsumers (limit : Z) (dev : Device.State) : list PowerDevice :=
  slice_to limit (Device.devicePowers dev).

(** The number that an integer of the minute arithmetic is: exact below
    2^53, far above any minute count of a clock; boundary strings with more
    digits than that are outside the model. *)
Definition number_of_Z (z : Z) : float :=
  match z with
  | Z0 => 0%float
  | Zpos _ => PrimFloat.of_uint63 (Uint63.of_Z z)
  | Zneg p => (- PrimFloat.of_uint63 (Uint63.of_Z (Zpos p)))%float
  end.

(** [None]: a boundary string that [hour_minute] does not read. *)
Definition getPeakHoursRemaining (season : option Season) (now : Clock)
  : option float :=
  match season with
  | None => Some 0%float
  | Some season =>
      let currentTotalMinutes := getHours now * 60 + getMinutes now in
      '(dayStartHour, dayStartMinute) ←
        hour_minute (JS.str_or (dayStart season) "06:00");
      '(dayEndHour, dayEndMinute) ←
        hour_minute (JS.str_or (dayEnd season) "22:00");
      let dayStartTotalMinutes := dayStartHour * 60 + dayStartMinute in
      let dayEndTotalMinutes := dayEndHour * 60 + dayEndMinute in
      if currentTotalMinutes <? dayStartTotalMinutes then
        Some (number_of_Z (dayEndTotalMinutes - dayStartTotalMinutes) / 60)%float
      else if currentTotalMinutes <? dayEndTotalMinutes then
        Some (number_of_Z (dayEndTotalMinutes - currentTotalMinutes) / 60)%float
      else Some 0%float
  end.

Definition getOffpeakHoursRemaining (season : option Season) (now : Clock)
  : option float :=
  match season with
  | None => Some 0%float
  | Some season =>
      let currentTotalMinutes := getHours now * 60 + getMinutes now in
      '(dayStartHour, dayStartMinute) ←
        hour_minute (JS.str_or (dayStart season) "06:00");
      '(dayEndHour, dayEndMinute) ←
        hour_minute (JS.str_or (dayEnd season) "22:00");
      let dayStartTotalMinutes := dayStartHour * 60 + dayStartMinute in
      let dayEndTotalMinutes := dayEndHour * 60 + dayEndMinute in
      let midnightMinutes := 24 * 60 in
      let eveningOffpeak := midnightMinutes - dayEndTotalMinutes in
      if currentTotalMinutes <? dayStartTotalMinutes then
        let remainingMorning :=
          (number_of_Z (dayStartTotalMinutes - currentTotalMinutes) / 60)%float in
        Some (remainingMorning + number_of_Z eveningOffpeak / 60)%float
      else if currentTotalMinutes <? dayEndTotalMinutes then
        Some (number_of_Z eveningOffpeak / 60)%float
      else Some (number_of_Z (midnightMinutes - currentTotalMinutes) / 60)%float
  end.

End DeviceRest.

(** * Vocabulary of the specification *)

(** ** Dates and clock times *)

(** Calendar dates as (month, day) pairs, ordered lexicographically. *)
Definition date_le (a b : Z * Z) : Prop :=
  a.1 < b.1 \/ (a.1 = b.1 /\ a.2 <= b.2).

(** The character of the decimal digit [d]. *)
Definition digit_char (d : Z) : ascii := ascii_of_N (Z.to_N (48 + d)).

(** The two decimal digits of [n], for [n] below 100. *)
Definition two_digits (n : Z) : string :=
  String (digit_char (n / 10)) (String (digit_char (n mod 10)) "").

(** The zero-padded [HH:MM] string of hour [h] and minute [m]. *)
Definition hhmm (h m : Z) : string :=
  (two_digits h ++ ":" ++ two_digits m)%string.

(** Minutes since local midnight. *)
Definition minute_of (hm : Z * Z) : Z := hm.1 * 60 + hm.2.

Definition minute_of_day (c : Clock) : Z := getHours c * 60 + getMinutes c.

(** A clock reading whose hour and minute are those of a 24-hour clock. *)
Definition clock_ok (c : Clock) : Prop :=
  0 <= getHours c < 24 /\ 0 <= getMinutes c < 60.

(** The (hour, minute) a season's [dayStart] or [dayEnd] field stands for: the
    default when the field is missing, else what its zero-padded [HH:MM]
    string says. *)
Inductive boundary (default : Z * Z) : option string -> Z * Z -> Prop :=
| boundary_missing : boundary default None default
| boundary_given h m :
    0 <= h < 24 -> 0 <= m < 60 -> boundary default (Some (hhmm h m)) (h, m).

(** The integers below [n], for checks by enumeration. *)
Definition range (n : nat) : list Z := map Z.of_nat (seq 0 n).

(** Two comparisons have the same outcome. *)
Definition same_comparison (c c' : comparison) : bool :=
  match c, c' with
  | Eq, Eq | Lt, Lt | Gt, Gt => true
  | _, _ => false
  end.

(** ** Runs of the history buffer *)

(** One call of [recordHistory]: the clock reading and the arguments. *)
Definition HistoryCall : Type := Clock * float * float * float.

(** The sample a call appends. *)
Definition sample_of (call : HistoryCall) : App.HistorySample :=
  let '(now, totalPower, costPerHour, costToday) := call in
  App.mkHistorySample (now_ms now) totalPower costPerHour costToday.

(** The app after a sequence of calls, in order. *)
Definition record_all (app : App.State) (calls : list HistoryCall) : App.State :=
  fold_left (fun app call =>
               let '(now, totalPower, costPerHour, costToday) := call in
               App.recordHistory app now totalPower costPerHour costToday)
            calls app.

(** The [i]-th of a run of calls, one a minute. *)
Definition sample_call (i : nat) : HistoryCall :=
  (mkClock (PrimFloat.of_uint63 (Uint63.of_Z (60000 * Z.of_nat i))) 2026 0 15 0 0,
   2000%float, 0.24%float, 0%float).

(** ** Settings, costs and events *)

(** The keys [putSettings] can write. *)
Definition settings_keys : list string :=
  ["currency"; "dayRate"; "nightRate"; "seasons"].

(** The devices that count: those whose power is greater than 0. *)
Definition positive (d : App.PowerDevice) : bool := PrimFloat.ltb 0 (App.power d).

(** The sum of the powers greater than 0, added in list order. *)
Definition positive_power_total (devices : list App.PowerDevice) : float :=
  fold_left PrimFloat.add (map App.power (List.filter positive devices)) 0%float.

(** The hours between the previous update of [dev] and [clock]. *)
Definition dt_hours (clock : Clock) (dev : Device.State) : float :=
  ((now_ms clock - Device.lastCostUpdate dev) / 1000 / 3600)%float.

(** The local calendar day of [clock] is not the one [dev] recorded. *)
Definition day_advanced (clock : Clock) (dev : Device.State) : bool :=
  negb (DateKey_eqb (Device.lastResetDate dev) (toDateString clock)).

(** The cost-per-hour alerts among the events. *)
Definition is_cost_threshold (e : Device.Event) : bool :=
  match e with Device.CostThresholdExceeded _ _ _ => true | _ => false end.

(** The tariff-changed events among the events. *)
Definition is_tariff_changed (e : Device.Event) : bool :=
  match e with Device.TariffChanged _ _ _ => true | _ => false end.

(** ** Scenarios *)

(** The settings [initializeSettings] stores on a fresh installation. *)
Definition st_default : Settings :=
  {[ "dayRate" := JS.VNum 0.12;
     "nightRate" := JS.VNum 0.06;
     "seasons" := JS.VSeasons
       [ mkSeason "Winter" 11 1 3 31 (Some "06:00") (Some "22:00");
         mkSeason "Summer" 4 1 10 31 (Some "07:00") (Some "23:00") ];
     "currency" := JS.VStr "EUR" ]}.

(** The scenario of the specification: one device drawing 2000 W, a flat
    configuration without seasons (the tariff is then [day]) at 0.12 per
    kWh. *)
Definition st_flat : Settings :=
  {[ "dayRate" := JS.VNum 0.12; "nightRate" := JS.VNum 0.06 ]}.

(** The power devices of the scenario: one heater at 2000 W. *)
Definition app_2000 : App.State :=
  App.mkState true (Some [("heater", App.mkPowerEntry "Heater" 2000)]) [].

(** The clock [i] minutes after midnight of Jan 15, 2026, with [Date.now()]
    counted from that midnight. *)
Definition minute_clock (i : nat) : Clock :=
  mkClock (PrimFloat.of_uint63 (Uint63.of_Z (60000 * Z.of_nat i)))
          2026 0 15 (Z.of_nat i / 60) (Z.of_nat i mod 60).

(** [updateCostTracking] run once a minute at the minutes 1 to [n]. *)
Definition run_minutes (n : nat) (dev : Device.State) : option Device.State :=
  foldl (fun dev i =>
           dev ← dev;
           r ← Device.updateCostTracking st_flat app_2000 (minute_clock i)
               (minute_clock i) dev;
           Some r.1.1)
        (Some dev) (seq 1 n).

(** ** Vocabulary of the further properties *)


(** A power that is a number. *)
Definition is_number (d : App.PowerDevice) : Prop :=
  PrimFloat.is_nan (App.power d) = false.

(** [a] draws at least as much power as [b]. *)
Definition at_least (a b : App.PowerDevice) : Prop :=
  PrimFloat.leb (App.power b) (App.power a) = true.

(** A specification float that is [NaN]. *)
Definition sf_is_nan (x : spec_float) : bool :=
  match x with S754_nan => true | _ => false end.

Definition is_daily_cost (e : Device.Event) : bool :=
  match e with Device.DailyCostExceeded _ _ => true | _ => false end.

Definition is_high_power (e : Device.Event) : bool :=
  match e with Device.HighPowerDevice _ _ _ => true | _ => false end.

(** The default of a key that [initializeSettings] handles. *)
Definition default_of (key : string) : JS.jsval :=
  if decide (key = "dayRate") then JS.VNum 0.12
  else if decide (key = "nightRate") then JS.VNum 0.06
  else if decide (key = "seasons") then JS.VSeasons AppRest.default_seasons
  else JS.VStr "EUR".

(** The fallback of [getSettings] for a key. *)
Definition fallback_of (key : string) : JS.jsval :=
  if decide (key = "currency") then JS.VStr "EUR"
  else if decide (key = "dayRate") then JS.VNum 0.12
  else if decide (key = "nightRate") then JS.VNum 0.06
  else JS.VSeasons [].

(** The field of the object [getSettings] returns that is named [key]. *)
Definition view_get (view : Api.SettingsView) (key : string) : JS.jsval :=
  if decide (key = "currency") then Api.currency view
  else if decide (key = "dayRate") then Api.dayRate view
  else if decide (key = "nightRate") then Api.nightRate view
  else Api.seasons view.

(** One interval tick as the host delivers it: the settings in force, the
    state of the device API and the table of power devices at that time, and
    the three clock readings. *)
Record Tick := mkTick {
  tick_settings : Settings;
  tick_ready : bool;
  tick_devices : option (list (string * App.PowerEntry));
  tick_clock1 : Clock;
  tick_clock2 : Clock;
  tick_clock3 : Clock
}.

(** The device and the history after a sequence of interval ticks. *)
Fixpoint run_ticks (ticks : list Tick) (history : list App.HistorySample)
    (dev : Device.State) : option (Device.State * list App.HistorySample) :=
  match ticks with
  | [] => Some (dev, history)
  | tick :: rest =>
      '(dev', app', _) ←
        Device.interval_tick (tick_settings tick)
          (App.mkState (tick_ready tick) (tick_devices tick) history)
          (tick_clock1 tick) (tick_clock2 tick) (tick_clock3 tick) dev;
      run_ticks rest (App.history app') dev'
  end.

(** [P] holds of every pair of integers below [n]. *)
Definition all_pairs (n : nat) (P : Z -> Z -> bool) : bool :=
  let l := range n in forallb (fun a => forallb (P a) l) l.

(** The hours of [a] and of [b] minutes add up to more than 0 and less than
    24, when [a] and [b] are positive and less than a day together. *)
Definition sum_in_day (a b : Z) : bool :=
  (a =? 0) || (b =? 0) || (1440 <=? a + b) ||
  (PrimFloat.ltb 0 (DeviceRest.number_of_Z a / 60 + DeviceRest.number_of_Z b / 60) &&
   PrimFloat.ltb (DeviceRest.number_of_Z a / 60 + DeviceRest.number_of_Z b / 60) 24).

(** Every power of the table is a number. *)
Definition table_numbers (table : list (string * App.PowerEntry)) : Prop :=
  Forall (fun item => PrimFloat.is_nan (App.entry_power item.2) = false) table.

(** The table [initHomeyAPI] builds from the listed devices. *)
Definition built_table (devices : list AppRest.HomeyDevice)
    (start : list (string * App.PowerEntry)) : list (string * App.PowerEntry) :=
  fold_left
    (fun table device =>
       if bool_decide ("measure_power" ∈ AppRest.capabilities device)
       then AppRest.table_set (AppRest.homey_id device)
              (App.mkPowerEntry (AppRest.homey_name device)
                 (AppRest.value_or_zero (AppRest.measure_power_value device)))
              table
       else table)
    devices start.

(** [a] may be listed before [b] among the keys of an object: an array
    index before every key that is none, and before the array indices that
    are not smaller. *)
Definition key_le (a b : string) : Prop :=
  match AppRest.array_index a, AppRest.array_index b with
  | Some m, Some n => m <= n
  | Some _, None => True
  | None, Some _ => False
  | None, None => True
  end.

(** Keys in the order in which an object lists them. *)
Definition key_ordered (keys : list string) : Prop :=
  StronglySorted key_le keys.

(** The entry [initHomeyAPI] stores for a listed device. *)
Definition entry_of (device : AppRest.HomeyDevice) : App.PowerEntry :=
  App.mkPowerEntry (AppRest.homey_name device)
    (AppRest.value_or_zero (AppRest.measure_power_value device)).

(** [caps.includes('measure_power')]. *)
Definition has_measure_power (device : AppRest.HomeyDevice) : bool :=
  bool_decide ("measure_power" ∈ AppRest.capabilities device).

(** A listed device with the [measure_power] capability whose id is [key],
    for a key that names an entry. *)
Definition tracked_as (key : string) (device : AppRest.HomeyDevice) : bool :=
  String.eqb (AppRest.homey_id device) key && has_measure_power device &&
  negb (String.eqb key "__proto__").

(** An id that is neither an array index nor [__proto__], as the ids the
    device API gives are. *)
Definition plain_id (deviceId : string) : Prop :=
  AppRest.array_index deviceId = None /\ deviceId <> "__proto__".

(** The power stored for a reported capability value: the value itself when
    it is a number other than 0, and 0 when it is missing, 0, -0 or
    [NaN]. *)
Definition stored_for (value : option float) (stored : float) : Prop :=
  match value with
  | None => stored = 0%float
  | Some x =>
      if PrimFloat.is_nan x || PrimFloat.eqb x 0 then stored = 0%float
      else stored = x
  end.

(** * Properties *)

(** ** Season calendar *)

Lemma date_le_bool (m d m' d' : Z) :
  (m' >? m) || ((m' =? m) && (d' >=? d)) = true <-> date_le (m, d) (m', d').
Proof.
  unfold date_le; simpl.
  rewrite orb_true_iff, andb_true_iff, Z.gtb_lt, Z.eqb_eq, Z.geb_le. lia.
Qed.

Lemma date_ge_bool (m d m' d' : Z) :
  (m' <? m) || ((m' =? m) && (d' <=? d)) = true <-> date_le (m', d') (m, d).
Proof.
  unfold date_le; simpl.
  rewrite orb_true_iff, andb_true_iff, Z.ltb_lt, Z.eqb_eq, Z.leb_le. lia.
Qed.

Lemma isDateInSeason_app_device month d season :
  App.isDateInSeason month d season = Device.isDateInSeason month d season.
Proof. reflexivity. Qed.

Lemma isDateInSeason_wrapping month d season :
  startMonth season > endMonth season ->
  Device.isDateInSeason month d season = true <->
  date_le (startMonth season, startDay season) (month, d) \/
  date_le (month, d) (endMonth season, endDay season).
Proof.
  intros Hwrap. unfold Device.isDateInSeason.
  destruct (Z.gtb_spec (startMonth season) (endMonth season)) as [_|Hle]; [|lia].
  rewrite orb_true_iff, date_le_bool, date_ge_bool. reflexivity.
Qed.

Lemma isDateInSeason_plain month d season :
  startMonth season <= endMonth season ->
  Device.isDateInSeason month d season = true <->
  date_le (startMonth season, startDay season) (month, d) /\
  date_le (month, d) (endMonth season, endDay season).
Proof.
  intros Hplain. unfold Device.isDateInSeason.
  destruct (Z.gtb_spec (startMonth season) (endMonth season)) as [Hgt|_]; [lia|].
  rewrite andb_true_iff, date_le_bool, date_ge_bool. reflexivity.
Qed.

(** C2.  For a wrapping season ([startMonth > endMonth]) the membership
    predicate of both [device.js] and [app.js] holds exactly when the date is
    on or after the start, or on or before the end, in the lexicographic order
    on (month, day).  For a season from Nov 1 to Mar 31, Dec 25 and Mar 31 are
    members, Jul 4 and Apr 1 are not. *)
Theorem wrapping_season_membership :
  (forall season month d,
      startMonth season > endMonth season ->
      (Device.isDateInSeason month d season = true <->
       date_le (startMonth season, startDay season) (month, d) \/
       date_le (month, d) (endMonth season, endDay season)) /\
      (App.isDateInSeason month d season = true <->
       date_le (startMonth season, startDay season) (month, d) \/
       date_le (month, d) (endMonth season, endDay season))) /\
  (forall n ds de,
      let winter := mkSeason n 11 1 3 31 ds de in
      Device.isDateInSeason 12 25 winter = true /\
      Device.isDateInSeason 3 31 winter = true /\
      Device.isDateInSeason 7 4 winter = false /\
      Device.isDateInSeason 4 1 winter = false /\
      App.isDateInSeason 12 25 winter = true /\
      App.isDateInSeason 3 31 winter = true /\
      App.isDateInSeason 7 4 winter = false /\
      App.isDateInSeason 4 1 winter = false).
Proof.
  split.
  - intros season month d Hwrap.
    split; [|rewrite (isDateInSeason_app_device month d season)];
      apply isDateInSeason_wrapping; assumption.
  - intros n ds de winter. repeat split; reflexivity.
Qed.

Lemma wrapping_season_membership_witness :
  let winter := mkSeason "Winter" 11 1 3 31 (Some "06:00") (Some "22:00") in
  startMonth winter > endMonth winter /\
  (Device.isDateInSeason 1 15 winter = true <->
   date_le (startMonth winter, startDay winter) (1, 15) \/
   date_le (1, 15) (endMonth winter, endDay winter)).
Proof.
  split; [simpl; lia|].
  apply (proj1 wrapping_season_membership
           (mkSeason "Winter" 11 1 3 31 (Some "06:00") (Some "22:00")) 1 15).
  simpl; lia.
Defined.

(** ** Tariff resolver *)

Lemma range_complete (n : nat) (z : Z) : 0 <= z < Z.of_nat n -> In z (range n).
Proof.
  intros H. unfold range. apply in_map_iff. exists (Z.to_nat z). split; [lia|].
  apply in_seq. lia.
Qed.

Lemma below_100 (P : Z -> bool) :
  forallb P (range 100) = true -> forall n, 0 <= n < 100 -> P n = true.
Proof.
  intros H n Hn. rewrite forallb_forall in H. apply H, range_complete. lia.
Qed.

(** [String(n).padStart(2, '0')] writes the two decimal digits of [n]. *)
Lemma padStart_two_digits n :
  0 <= n < 100 -> JS.padStart (JS.String_of n) 2 "0" = two_digits n.
Proof.
  intros Hn. apply String.eqb_eq. revert n Hn.
  apply (below_100
           (fun n => String.eqb (JS.padStart (JS.String_of n) 2 "0") (two_digits n))).
  vm_compute. reflexivity.
Qed.

Lemma currentTime_hhmm now :
  clock_ok now -> currentTime now = hhmm (getHours now) (getMinutes now).
Proof.
  intros [Hh Hm]. unfold currentTime, hhmm.
  rewrite !padStart_two_digits by lia. reflexivity.
Qed.

(** Comparing two strings that start with parts of equal length compares the
    parts first. *)
Lemma compare_app_same_length (a b x y : string) :
  String.length a = String.length b ->
  String.compare (a ++ x) (b ++ y) =
  match String.compare a b with Eq => String.compare x y | c => c end.
Proof.
  revert b. induction a as [|c a IH]; intros [|c' b] Hlen; simpl in *;
    try discriminate.
  - reflexivity.
  - destruct (Ascii.compare c c'); auto.
Qed.

Lemma same_comparison_eq c c' : same_comparison c c' = true -> c = c'.
Proof. destruct c, c'; simpl; congruence. Qed.

Lemma two_digits_compare a b :
  0 <= a < 100 -> 0 <= b < 100 ->
  String.compare (two_digits a) (two_digits b) = Z.compare a b.
Proof.
  intros Ha Hb. apply same_comparison_eq.
  pose (P := fun a =>
    forallb (fun b => same_comparison
                        (String.compare (two_digits a) (two_digits b)) (a ?= b))
            (range 100)).
  assert (HP : P a = true) by (apply below_100; [vm_compute; reflexivity | lia]).
  unfold P in HP. rewrite forallb_forall in HP.
  apply HP, range_complete. lia.
Qed.

(** On zero-padded clock strings the lexicographic order is the order of the
    minutes since midnight. *)
Lemma hhmm_compare h1 m1 h2 m2 :
  0 <= h1 < 24 -> 0 <= m1 < 60 -> 0 <= h2 < 24 -> 0 <= m2 < 60 ->
  String.compare (hhmm h1 m1) (hhmm h2 m2) = Z.compare (h1 * 60 + m1) (h2 * 60 + m2).
Proof.
  intros H1 M1 H2 M2. unfold hhmm.
  rewrite compare_app_same_length by reflexivity.
  rewrite two_digits_compare by lia.
  change (String.compare (":" ++ two_digits m1) (":" ++ two_digits m2))
    with (String.compare (two_digits m1) (two_digits m2)).
  rewrite two_digits_compare by lia.
  destruct (Z.compare_spec h1 h2), (Z.compare_spec m1 m2); symmetry;
    first [ apply Z.compare_eq_iff | apply Z.compare_lt_iff
          | apply Z.compare_gt_iff ]; lia.
Qed.

Lemma str_lt_hhmm h1 m1 h2 m2 :
  0 <= h1 < 24 -> 0 <= m1 < 60 -> 0 <= h2 < 24 -> 0 <= m2 < 60 ->
  JS.str_lt (hhmm h1 m1) (hhmm h2 m2) = (h1 * 60 + m1 <? h2 * 60 + m2).
Proof.
  intros. unfold JS.str_lt, Z.ltb. rewrite hhmm_compare by assumption.
  reflexivity.
Qed.

Lemma str_ge_hhmm h1 m1 h2 m2 :
  0 <= h1 < 24 -> 0 <= m1 < 60 -> 0 <= h2 < 24 -> 0 <= m2 < 60 ->
  JS.str_ge (hhmm h1 m1) (hhmm h2 m2) = (h2 * 60 + m2 <=? h1 * 60 + m1).
Proof.
  intros. unfold JS.str_ge. rewrite str_lt_hhmm by assumption.
  destruct (Z.ltb_spec (h1 * 60 + m1) (h2 * 60 + m2)),
           (Z.leb_spec (h2 * 60 + m2) (h1 * 60 + m1)); simpl; auto; lia.
Qed.

(** A boundary field read with its default is the boundary's clock string. *)
Lemma boundary_str_or dh dm field hm :
  0 <= dh < 24 -> 0 <= dm < 60 ->
  boundary (dh, dm) field hm ->
  JS.str_or field (hhmm dh dm) = hhmm hm.1 hm.2 /\
  0 <= hm.1 < 24 /\ 0 <= hm.2 < 60.
Proof.
  intros Hdh Hdm [|h m Hh Hm]; simpl; auto.
Qed.

Lemma hour_minute_hhmm h m :
  0 <= h < 24 -> 0 <= m < 60 -> hour_minute (hhmm h m) = Some (h, m).
Proof.
  intros Hh Hm.
  pose (P := fun h =>
    forallb (fun m => match hour_minute (hhmm h m) with
                      | Some (h', m') => (h' =? h) && (m' =? m)
                      | None => false
                      end) (range 100)).
  assert (HP : P h = true) by (apply below_100; [vm_compute; reflexivity | lia]).
  unfold P in HP. rewrite forallb_forall in HP.
  specialize (HP m (range_complete 100 m ltac:(lia))).
  destruct (hour_minute (hhmm h m)) as [[h' m']|]; [|discriminate].
  apply andb_prop in HP as [E1 E2]. f_equal. f_equal; lia.
Qed.

(** The tariff of a season with well-formed boundaries, in minutes. *)
Lemma getCurrentTariff_minutes season now s e :
  boundary (6, 0) (dayStart season) s ->
  boundary (22, 0) (dayEnd season) e ->
  clock_ok now ->
  Device.getCurrentTariff (Some season) now =
  if (minute_of s <=? minute_of_day now) && (minute_of_day now <? minute_of e)
  then day else night.
Proof.
  intros Hs He Hnow. unfold Device.getCurrentTariff.
  change "06:00" with (hhmm 6 0). change "22:00" with (hhmm 22 0).
  apply boundary_str_or in Hs as (-> & Hsh & Hsm); [|lia..].
  apply boundary_str_or in He as (-> & Heh & Hem); [|lia..].
  rewrite (currentTime_hhmm now Hnow). destruct Hnow as [Hh Hm].
  rewrite str_ge_hhmm, str_lt_hhmm by assumption. reflexivity.
Qed.

Lemma app_getCurrentTariff_device st now season :
  App.getCurrentSeason st now = Some season ->
  App.getCurrentTariff st now = Some (Device.getCurrentTariff season now).
Proof.
  intros Hseason. unfold App.getCurrentTariff. rewrite Hseason. simpl.
  destruct season as [season|]; [|reflexivity].
  unfold Device.getCurrentTariff.
  destruct (JS.str_ge _ _ && JS.str_lt _ _); reflexivity.
Qed.

(** C3, as the code has it.  For a season whose [dayStart] and [dayEnd] are
    zero-padded [HH:MM] strings (or missing, standing for 06:00 and 22:00)
    the tariff is [day] exactly when the clock time is in the half-open window
    from [dayStart] (included) to [dayEnd] (excluded), and [night] otherwise,
    in [device.js] and in [app.js]; at [dayEnd] it is [night], and when
    [dayStart] is before [dayEnd] it is [day] at [dayStart] and one minute
    before [dayEnd]. *)
Theorem tariff_window season now s e :
  boundary (6, 0) (dayStart season) s ->
  boundary (22, 0) (dayEnd season) e ->
  clock_ok now ->
  let tariff := Device.getCurrentTariff (Some season) now in
  let inside := minute_of s <= minute_of_day now < minute_of e in
  (tariff = day <-> inside) /\
  (tariff = night <-> ~ inside) /\
  (forall st, App.getCurrentSeason st now = Some (Some season) ->
              App.getCurrentTariff st now = Some tariff) /\
  (minute_of_day now = minute_of s -> minute_of s < minute_of e -> tariff = day) /\
  (minute_of_day now = minute_of e -> tariff = night) /\
  (minute_of_day now = minute_of e - 1 -> minute_of s < minute_of e ->
   tariff = day).
Proof.
  intros Hs He Hnow tariff inside. subst tariff inside.
  rewrite (getCurrentTariff_minutes season now s e Hs He Hnow).
  destruct (Z.leb_spec (minute_of s) (minute_of_day now)),
           (Z.ltb_spec (minute_of_day now) (minute_of e)); simpl;
    (repeat split; try (intros; first [ discriminate | lia | reflexivity ]));
    try (intros st Hst; rewrite (app_getCurrentTariff_device st now _ Hst),
           (getCurrentTariff_minutes season now s e Hs He Hnow);
         destruct (Z.leb_spec (minute_of s) (minute_of_day now)),
                  (Z.ltb_spec (minute_of_day now) (minute_of e)); simpl;
         first [ reflexivity | lia ]).
Qed.

Lemma tariff_window_witness :
  let winter := mkSeason "Winter" 11 1 3 31 (Some "06:00") (Some "22:00") in
  let now := mkClock 0 2026 0 15 6 0 in
  clock_ok now /\ Device.getCurrentTariff (Some winter) now = day.
Proof.
  intros winter now.
  assert (Hnow : clock_ok now) by (unfold clock_ok; simpl; lia).
  split; [exact Hnow|].
  assert (Hs : boundary (6, 0) (dayStart winter) (6, 0))
    by (apply (boundary_given (6, 0) 6 0); lia).
  assert (He : boundary (22, 0) (dayEnd winter) (22, 0))
    by (apply (boundary_given (22, 0) 22 0); lia).
  destruct (tariff_window winter now (6, 0) (22, 0) Hs He Hnow) as [[_ Hday] _].
  apply Hday. vm_compute. split; [discriminate | reflexivity].
Defined.

(** C3 as first stated fails at [dayStart] of a season whose [dayEnd] is
    before its [dayStart]: the window is empty and the tariff is [night]. *)
Lemma tariff_at_dayStart_of_empty_window :
  let season := mkSeason "Reversed" 1 1 12 31 (Some "22:00") (Some "06:00") in
  let now := mkClock 0 2026 0 15 22 0 in
  boundary (6, 0) (dayStart season) (22, 0) /\
  boundary (22, 0) (dayEnd season) (6, 0) /\
  clock_ok now /\
  minute_of_day now = minute_of (22, 0) /\
  Device.getCurrentTariff (Some season) now = night /\
  Device.getCurrentTariff (Some season) now <> day.
Proof.
  intros season now.
  split; [apply (boundary_given (6, 0) 22 0); lia|].
  split; [apply (boundary_given (22, 0) 6 0); lia|].
  split; [unfold clock_ok; simpl; lia|].
  split; [reflexivity|]. split; [reflexivity|].
  vm_compute. discriminate.
Qed.

(** The minutes until the next change, for well-formed boundaries. *)
Lemma getMinutesUntilChange_minutes season tariff now s e :
  boundary (6, 0) (dayStart season) s ->
  boundary (22, 0) (dayEnd season) e ->
  Device.getMinutesUntilChange (Some season) tariff now =
  Some match tariff with
       | day => minute_of e - minute_of_day now
       | night =>
           if minute_of_day now >=? minute_of e
           then (24 * 60 - minute_of_day now) + minute_of s
           else minute_of s - minute_of_day now
       end.
Proof.
  intros Hs He. unfold Device.getMinutesUntilChange.
  change "06:00" with (hhmm 6 0). change "22:00" with (hhmm 22 0).
  apply boundary_str_or in Hs as (-> & Hsh & Hsm); [|lia..].
  apply boundary_str_or in He as (-> & Heh & Hem); [|lia..].
  rewrite !hour_minute_hhmm by assumption. simpl.
  destruct s as [sh sm], e as [eh em]. unfold minute_of, minute_of_day. simpl.
  destruct tariff; [reflexivity|].
  destruct (_ >=? _); reflexivity.
Qed.

(** C4, as the code has it.  For a season whose [dayStart] is strictly before
    its [dayEnd] (zero-padded [HH:MM] strings, or the defaults), at every
    minute of the day and with the tariff resolved from that season at that
    minute, [getMinutesUntilChange] returns a value in [0, 1440); one minute
    before [dayEnd], and one minute before [dayStart], it returns 1. *)
Theorem minutes_until_change_bounds season now s e :
  boundary (6, 0) (dayStart season) s ->
  boundary (22, 0) (dayEnd season) e ->
  clock_ok now ->
  minute_of s < minute_of e ->
  let tariff := Device.getCurrentTariff (Some season) now in
  exists v,
    Device.getMinutesUntilChange (Some season) tariff now = Some v /\
    0 <= v < 1440 /\
    (minute_of_day now = minute_of e - 1 -> tariff = day /\ v = 1) /\
    (minute_of_day now = minute_of s - 1 -> tariff = night /\ v = 1).
Proof.
  intros Hs He Hnow Hlt tariff. subst tariff.
  rewrite (getMinutesUntilChange_minutes season _ now s e Hs He).
  rewrite (getCurrentTariff_minutes season now s e Hs He Hnow).
  eexists; split; [reflexivity|].
  assert (Hs' : 0 <= minute_of s < 1440).
  { apply (boundary_str_or 6 0) in Hs as (_ & ? & ?); [|lia..].
    unfold minute_of; lia. }
  assert (He' : 0 <= minute_of e < 1440).
  { apply (boundary_str_or 22 0) in He as (_ & ? & ?); [|lia..].
    unfold minute_of; lia. }
  assert (Hn' : 0 <= minute_of_day now < 1440).
  { destruct Hnow. unfold minute_of_day; lia. }
  destruct (Z.leb_spec (minute_of s) (minute_of_day now)),
           (Z.ltb_spec (minute_of_day now) (minute_of e)); simpl;
    try destruct (Z.geb_spec (minute_of_day now) (minute_of e));
    repeat split; intros; first [ lia | reflexivity ].
Qed.

Lemma minutes_until_change_bounds_witness :
  let winter := mkSeason "Winter" 11 1 3 31 (Some "06:00") (Some "22:00") in
  let now := mkClock 0 2026 0 15 21 59 in
  exists v,
    Device.getMinutesUntilChange
      (Some winter) (Device.getCurrentTariff (Some winter) now) now = Some v /\
    0 <= v < 1440 /\
    (minute_of_day now = minute_of (22, 0) - 1 ->
     Device.getCurrentTariff (Some winter) now = day /\ v = 1) /\
    (minute_of_day now = minute_of (6, 0) - 1 ->
     Device.getCurrentTariff (Some winter) now = night /\ v = 1).
Proof.
  intros winter now.
  apply (minutes_until_change_bounds winter now (6, 0) (22, 0)).
  - apply (boundary_given (6, 0) 6 0); lia.
  - apply (boundary_given (22, 0) 22 0); lia.
  - unfold clock_ok; simpl; lia.
  - unfold minute_of; simpl; lia.
Defined.

(** C4 as first stated fails on a season whose [dayEnd] is before its
    [dayStart]: at noon the tariff is [night] and the value is 2040. *)
Lemma minutes_until_change_out_of_range :
  let season := mkSeason "Reversed" 1 1 12 31 (Some "22:00") (Some "06:00") in
  let now := mkClock 0 2026 0 15 12 0 in
  clock_ok now /\
  Device.getCurrentTariff (Some season) now = night /\
  Device.getMinutesUntilChange
    (Some season) (Device.getCurrentTariff (Some season) now) now = Some 2040 /\
  ~ (0 <= 2040 < 1440).
Proof.
  intros season now. unfold clock_ok. simpl.
  repeat split; try lia; try reflexivity.
Qed.

(** ** History buffer *)

Lemma slice_last_length {A} (n : nat) (a : list A) :
  (length (App.slice_last n a) <= n)%nat.
Proof. unfold App.slice_last. rewrite length_drop. lia. Qed.

Lemma slice_last_short {A} (n : nat) (a : list A) :
  (length a <= n)%nat -> App.slice_last n a = a.
Proof.
  intros H. unfold App.slice_last.
  replace (length a - n)%nat with 0%nat by lia. reflexivity.
Qed.

Lemma slice_last_app {A} (n : nat) (a b : list A) :
  App.slice_last n (App.slice_last n a ++ b) = App.slice_last n (a ++ b).
Proof.
  destruct (Nat.le_gt_cases (length a) n) as [Hle|Hgt].
  - rewrite (slice_last_short n a Hle). reflexivity.
  - unfold App.slice_last.
    rewrite !length_app, length_drop.
    replace (length a - (length a - n) + length b - n)%nat with (length b) by lia.
    replace (length a + length b - n)%nat with ((length a - n) + length b)%nat by lia.
    rewrite <- drop_drop. f_equal.
    rewrite drop_app_le by lia. reflexivity.
Qed.

Lemma recordHistory_history app now p h d :
  App.history (App.recordHistory app now p h d) =
  App.slice_last 1440 (App.history app ++ [sample_of (now, p, h, d)]).
Proof.
  unfold App.recordHistory; simpl.
  destruct (Nat.ltb_spec 1440
              (length (App.history app ++ [App.mkHistorySample (now_ms now) p h d])))
    as [Hlt|Hle].
  - reflexivity.
  - symmetry. apply slice_last_short. exact Hle.
Qed.

Lemma record_all_history calls : forall app,
  (length (App.history app) <= 1440)%nat ->
  App.history (record_all app calls) =
  App.slice_last 1440 (App.history app ++ map sample_of calls).
Proof.
  induction calls as [|[[[now p] h] d] calls IH]; intros app Hlen; simpl.
  - rewrite app_nil_r. symmetry. apply slice_last_short, Hlen.
  - rewrite IH; rewrite recordHistory_history.
    + rewrite slice_last_app, <- app_assoc. reflexivity.
    + apply slice_last_length.
Qed.

(** C6.  After any sequence of [recordHistory] calls on a buffer of at most
    1440 samples (the empty buffer that [onInit] creates is one) the buffer
    holds at most 1440 samples: the last 1440 of the old samples followed by
    the recorded ones, in order.  After 1441 calls on the empty buffer it is
    the samples 2 to 1441 in order, and the first sample is gone (it is not
    in the buffer when the samples are pairwise distinct). *)
Theorem history_bounded app calls :
  let history := App.history (record_all app calls) in
  ((length (App.history app) <= 1440)%nat ->
   (length history <= 1440)%nat /\
   history = App.slice_last 1440 (App.history app ++ map sample_of calls)) /\
  (App.history app = [] -> length calls = 1441%nat ->
   history = tail (map sample_of calls) /\
   length history = 1440%nat /\
   (NoDup (map sample_of calls) ->
    forall first, head (map sample_of calls) = Some first -> first ∉ history)).
Proof.
  intros history. split.
  - intros Hbound. subst history. rewrite record_all_history by exact Hbound.
    split; [apply slice_last_length | reflexivity].
  - intros Hempty Hlen.
    assert (Htail : history = tail (map sample_of calls)).
    { subst history. rewrite record_all_history by (rewrite Hempty; simpl; lia).
      rewrite Hempty. unfold App.slice_last. simpl.
      rewrite length_map, Hlen. change (1441 - 1440)%nat with 1%nat.
      destruct (map sample_of calls); reflexivity. }
    split; [exact Htail|]. split.
    + rewrite Htail.
      assert (length (map sample_of calls) = 1441%nat)
        by (rewrite length_map; exact Hlen).
      destruct (map sample_of calls); simpl in *; lia.
    + intros Hnodup first Hfirst. rewrite Htail.
      destruct (map sample_of calls) as [|x rest]; [discriminate|].
      simpl in *. injection Hfirst as ->.
      apply NoDup_cons in Hnodup as [Hnotin _]. exact Hnotin.
Qed.

Lemma history_bounded_witness :
  let app := App.mkState true None [] in
  let calls := map sample_call (seq 0 1441) in
  let history := App.history (record_all app calls) in
  App.history app = [] /\ length calls = 1441%nat /\
  length history = 1440%nat /\ history = tail (map sample_of calls).
Proof.
  intros app calls history.
  destruct (history_bounded app calls) as (_ & H).
  destruct (H eq_refl eq_refl) as (Htail & Hlen & _).
  split; [reflexivity|]. split; [reflexivity|].
  split; [exact Hlen | exact Htail].
Defined.

(** ** Settings API *)

Lemma set_if_defined_lookup (body : gmap string JS.jsval) (key : string)
    (homey : Settings) (k : string) :
  Api.set_if_defined body key homey !! k =
  if decide (k = key) then
    match body !! key with Some v => Some v | None => homey !! k end
  else homey !! k.
Proof.
  unfold Api.set_if_defined.
  destruct (decide (k = key)) as [->|Hne].
  - destruct (body !! key); [apply lookup_insert_eq | reflexivity].
  - destruct (body !! key); [apply lookup_insert_ne; congruence | reflexivity].
Qed.

Lemma putSettings_lookup (homey : Settings) (body : gmap string JS.jsval)
    (k : string) :
  (Api.putSettings homey body).1 !! k =
  if decide (k ∈ settings_keys) then
    match body !! k with Some v => Some v | None => homey !! k end
  else homey !! k.
Proof.
  unfold Api.putSettings; simpl. rewrite !set_if_defined_lookup.
  destruct (decide (k ∈ settings_keys)) as [Hin|Hnotin].
  - unfold settings_keys in Hin. rewrite !elem_of_cons, elem_of_nil in Hin.
    destruct Hin as [->|[->|[->|[->|[]]]]]; simpl;
      repeat (first [ rewrite decide_True by reflexivity
                    | rewrite decide_False by discriminate ]);
      reflexivity.
  - unfold settings_keys in Hnotin.
    rewrite !not_elem_of_cons in Hnotin. destruct Hnotin as (?&?&?&?&_).
    rewrite !decide_False by assumption. reflexivity.
Qed.

(** C9.  [putSettings] writes a value for exactly the keys among [currency],
    [dayRate], [nightRate] and [seasons] that the body holds, leaves every
    other key of the store as it was, and answers success whatever the body
    holds. *)
Theorem putSettings_frame (homey : Settings) (body : gmap string JS.jsval) :
  let homey' := (Api.putSettings homey body).1 in
  (Api.putSettings homey body).2 = true /\
  (forall key v, key ∈ settings_keys -> body !! key = Some v ->
                 homey' !! key = Some v) /\
  (forall key, body !! key = None -> homey' !! key = homey !! key) /\
  (forall key, key ∉ settings_keys -> homey' !! key = homey !! key).
Proof.
  intros homey'. subst homey'. split; [reflexivity|].
  split; [|split].
  - intros key v Hin Hbody. rewrite putSettings_lookup, decide_True, Hbody; auto.
  - intros key Hbody. rewrite putSettings_lookup, Hbody.
    destruct (decide _); reflexivity.
  - intros key Hnotin. rewrite putSettings_lookup, decide_False; auto.
Qed.

Lemma or_falsy v d : JS.truthy v = false -> JS.or v d = d.
Proof. intros H. unfold JS.or. rewrite H. reflexivity. Qed.

(** C10.  A stored rate that is falsy, in particular a stored 0, is replaced
    by the fallback (0.12 for [dayRate], 0.06 for [nightRate]) by the rate
    resolvers of [device.js] and [app.js] and by [getSettings]: the stored
    zero rate is never returned. *)
Theorem zero_rate_falls_back (st : Settings) :
  (forall v, st !! "dayRate" = Some v -> JS.truthy v = false ->
     Device.getCurrentRate st day = JS.VNum 0.12 /\
     Api.dayRate (Api.getSettings st) = JS.VNum 0.12 /\
     (forall now, App.getCurrentTariff st now = Some day ->
                  App.getCurrentRate st now = Some (JS.VNum 0.12))) /\
  (forall v, st !! "nightRate" = Some v -> JS.truthy v = false ->
     Device.getCurrentRate st night = JS.VNum 0.06 /\
     Api.nightRate (Api.getSettings st) = JS.VNum 0.06 /\
     (forall now, App.getCurrentTariff st now = Some night ->
                  App.getCurrentRate st now = Some (JS.VNum 0.06))) /\
  JS.truthy (JS.VNum 0) = false /\
  (st !! "dayRate" = Some (JS.VNum 0) ->
   Device.getCurrentRate st day = JS.VNum 0.12 /\
   Api.dayRate (Api.getSettings st) = JS.VNum 0.12) /\
  (st !! "nightRate" = Some (JS.VNum 0) ->
   Device.getCurrentRate st night = JS.VNum 0.06 /\
   Api.nightRate (Api.getSettings st) = JS.VNum 0.06).
Proof.
  assert (Hday : forall v, st !! "dayRate" = Some v -> JS.truthy v = false ->
     Device.getCurrentRate st day = JS.VNum 0.12 /\
     Api.dayRate (Api.getSettings st) = JS.VNum 0.12 /\
     (forall now, App.getCurrentTariff st now = Some day ->
                  App.getCurrentRate st now = Some (JS.VNum 0.12))).
  { intros v Hv Hfalsy.
    assert (Hor : JS.or (settings_get st "dayRate") (JS.VNum 0.12) = JS.VNum 0.12).
    { unfold settings_get. rewrite Hv. simpl. apply or_falsy, Hfalsy. }
    repeat split; simpl; try exact Hor.
    intros now Htariff. unfold App.getCurrentRate. rewrite Htariff. simpl.
    rewrite Hor. reflexivity. }
  assert (Hnight : forall v, st !! "nightRate" = Some v -> JS.truthy v = false ->
     Device.getCurrentRate st night = JS.VNum 0.06 /\
     Api.nightRate (Api.getSettings st) = JS.VNum 0.06 /\
     (forall now, App.getCurrentTariff st now = Some night ->
                  App.getCurrentRate st now = Some (JS.VNum 0.06))).
  { intros v Hv Hfalsy.
    assert (Hor : JS.or (settings_get st "nightRate") (JS.VNum 0.06) = JS.VNum 0.06).
    { unfold settings_get. rewrite Hv. simpl. apply or_falsy, Hfalsy. }
    repeat split; simpl; try exact Hor.
    intros now Htariff. unfold App.getCurrentRate. rewrite Htariff. simpl.
    rewrite Hor. reflexivity. }
  split; [exact Hday|]. split; [exact Hnight|]. split; [reflexivity|].
  split; intros Hzero.
  - destruct (Hday _ Hzero eq_refl) as (? & ? & _). split; assumption.
  - destruct (Hnight _ Hzero eq_refl) as (? & ? & _). split; assumption.
Qed.

Lemma zero_rate_falls_back_witness :
  let st : Settings := {[ "dayRate" := JS.VNum 0 ]} in
  st !! "dayRate" = Some (JS.VNum 0) /\
  Device.getCurrentRate st day = JS.VNum 0.12 /\
  Api.dayRate (Api.getSettings st) = JS.VNum 0.12.
Proof.
  intros st. split; [reflexivity|].
  destruct (zero_rate_falls_back st) as (_ & _ & _ & Hday & _).
  apply Hday. reflexivity.
Defined.

Lemma putSettings_frame_witness :
  let homey : Settings := {[ "dayRate" := JS.VNum 0.2; "currency" := JS.VStr "EUR" ]} in
  let body : gmap string JS.jsval := {[ "dayRate" := JS.VNum 0.15 ]} in
  (Api.putSettings homey body).1 !! "dayRate" = Some (JS.VNum 0.15) /\
  (Api.putSettings homey body).1 !! "currency" = Some (JS.VStr "EUR").
Proof.
  intros homey body.
  destruct (putSettings_frame homey body) as (_ & Hset & Hkeep & _).
  split.
  - apply Hset; [|reflexivity]. unfold settings_keys. set_solver.
  - rewrite Hkeep; reflexivity.
Defined.

(** ** Cost accumulator and alert evaluator *)

Lemma DateKey_eqb_eq (a b : DateKey) : DateKey_eqb a b = true <-> a = b.
Proof.
  destruct a as [[y1 m1] d1], b as [[y2 m2] d2]. simpl.
  rewrite !andb_true_iff, !Z.eqb_eq. split.
  - intros [[-> ->] ->]. reflexivity.
  - intros [= -> -> ->]. auto.
Qed.

Lemma DateKey_eqb_refl (a : DateKey) : DateKey_eqb a a = true.
Proof. apply DateKey_eqb_eq. reflexivity. Qed.

(** The loop that adds the positive powers computes the sum over the filtered
    list. *)
Lemma total_power_loop (devices : list App.PowerDevice) : forall total,
  fold_left (fun total device =>
               if PrimFloat.ltb 0 (App.power device)
               then (total + App.power device)%float else total)
            devices total =
  fold_left PrimFloat.add (map App.power (List.filter positive devices)) total.
Proof.
  induction devices as [|d devices IH]; intros total; simpl; [reflexivity|].
  unfold positive at 1. destruct (PrimFloat.ltb 0 (App.power d)); simpl; apply IH.
Qed.

(** What one run of [updateCostTracking] computes, for settings inside the
    model. *)
Lemma updateCostTracking_result st app clock recorded dev season rate :
  Device.getCurrentSeason st clock = Some season ->
  JS.ToNumber (Device.getCurrentRate st (Device.getCurrentTariff season clock))
    = Some rate ->
  let devices := Device.getDevicesWithPower app in
  let totalPower := positive_power_total devices in
  let costToday :=
    ((if day_advanced clock dev then 0 else Device.costToday dev) +
     totalPower / 1000 * dt_hours clock dev * rate)%float in
  let costPerHour := (totalPower / 1000 * rate)%float in
  let dev' :=
    Device.mkState (Device.lastTariff dev) (Device.tariffChangesToday dev)
      (toDateString clock) costToday (now_ms clock)
      (Device.sort_desc (List.filter positive devices)) in
  Device.updateCostTracking st app clock recorded dev =
  Some (dev', App.recordHistory app recorded totalPower costPerHour costToday,
        Device.checkAlerts dev' costPerHour costToday rate).
Proof.
  intros Hseason Hrate. unfold Device.updateCostTracking.
  rewrite Hseason. simpl. rewrite Hrate. simpl.
  rewrite total_power_loop.
  fold (positive_power_total (Device.getDevicesWithPower app)).
  fold (day_advanced clock dev). fold (dt_hours clock dev).
  assert (Hdate : (if day_advanced clock dev then toDateString clock
                   else Device.lastResetDate dev) = toDateString clock).
  { unfold day_advanced.
    destruct (DateKey_eqb _ _) eqn:E; simpl; [|reflexivity].
    apply DateKey_eqb_eq, E. }
  rewrite Hdate. reflexivity.
Qed.

(** C5.  One run of [updateCostTracking] adds
    [(totalPower / 1000) * dt_hours * currentRate] to [costToday] (after the
    reset to 0 when it resets), where [totalPower] sums the powers greater
    than 0, [dt_hours] is the time since the previous update in hours and
    [currentRate] is the rate resolved at the clock reading of the run.
    2000 W over one hour at 0.12 adds exactly 0.24 in one update, and
    0.24 up to rounding in sixty one-minute updates. *)
Theorem cost_increment :
  (forall st app clock recorded dev season rate,
      Device.getCurrentSeason st clock = Some season ->
      JS.ToNumber (Device.getCurrentRate st (Device.getCurrentTariff season clock))
        = Some rate ->
      exists dev' app' events,
        Device.updateCostTracking st app clock recorded dev
          = Some (dev', app', events) /\
        Device.costToday dev' =
        ((if day_advanced clock dev then 0 else Device.costToday dev) +
         positive_power_total (Device.getDevicesWithPower app) / 1000 *
         dt_hours clock dev * rate)%float /\
        Device.lastCostUpdate dev' = now_ms clock) /\
  (forall cost0 : float,
      let dev := Device.mkState (Some day) 0 (2026, 0, 15) cost0 0 [] in
      exists dev' app' events,
        Device.updateCostTracking st_flat app_2000 (minute_clock 60)
            (minute_clock 60) dev
          = Some (dev', app', events) /\
        Device.costToday dev' = (cost0 + 0.24)%float) /\
  (exists dev',
      run_minutes 60 (Device.mkState (Some day) 0 (2026, 0, 15) 0 0 []) = Some dev' /\
      PrimFloat.ltb (abs (Device.costToday dev' - 0.24)) 1e-12 = true).
Proof.
  split; [|split].
  - intros st app clock recorded dev season rate Hseason Hrate.
    rewrite (updateCostTracking_result st app clock recorded dev season rate
               Hseason Hrate).
    do 3 eexists. split; [reflexivity|]. split; reflexivity.
  - intros cost0 dev.
    rewrite (updateCostTracking_result st_flat app_2000 (minute_clock 60)
               (minute_clock 60) dev None 0.12%float eq_refl eq_refl).
    do 3 eexists. split; [reflexivity|]. vm_compute. reflexivity.
  - eexists. split; vm_compute; reflexivity.
Qed.

Lemma cost_increment_witness :
  let dev := Device.mkState (Some day) 0 (2026, 0, 15) 0 0 [] in
  exists dev' app' events,
    Device.updateCostTracking st_flat app_2000 (minute_clock 60)
      (minute_clock 60) dev
      = Some (dev', app', events) /\
    Device.costToday dev' =
    ((if day_advanced (minute_clock 60) dev then 0 else Device.costToday dev) +
     positive_power_total (Device.getDevicesWithPower app_2000) / 1000 *
     dt_hours (minute_clock 60) dev * 0.12)%float /\
    Device.lastCostUpdate dev' = now_ms (minute_clock 60).
Proof.
  intros dev.
  apply (proj1 cost_increment st_flat app_2000 (minute_clock 60)
           (minute_clock 60) dev None 0.12%float);
    reflexivity.
Defined.

(** C8.  One run of [updateCostTracking] triggers the cost-per-hour alert
    exactly when [costPerHour] is greater than 0, once, with the observed
    [costPerHour] as both [cost_per_hour] and [threshold] and with the summed
    power of the devices of the snapshot (those of positive power, by
    descending power); otherwise it triggers no such alert. *)
Theorem cost_threshold_alert st app clock recorded dev season rate :
  Device.getCurrentSeason st clock = Some season ->
  JS.ToNumber (Device.getCurrentRate st (Device.getCurrentTariff season clock))
    = Some rate ->
  exists dev' app' events,
    Device.updateCostTracking st app clock recorded dev
        = Some (dev', app', events) /\
    let costPerHour :=
      (positive_power_total (Device.getDevicesWithPower app) / 1000 * rate)%float in
    let snapshot_power :=
      fold_left (fun sum d => (sum + App.power d)%float)
                (Device.devicePowers dev') 0%float in
    Device.devicePowers dev' =
      Device.sort_desc (List.filter positive (Device.getDevicesWithPower app)) /\
    List.filter is_cost_threshold events =
      if PrimFloat.ltb 0 costPerHour
      then [Device.CostThresholdExceeded costPerHour snapshot_power costPerHour]
      else [].
Proof.
  intros Hseason Hrate.
  rewrite (updateCostTracking_result st app clock recorded dev season rate
      Hseason Hrate).
  do 3 eexists. split; [reflexivity|]. simpl. split; [reflexivity|].
  unfold Device.checkAlerts. simpl.
  rewrite !List.filter_app.
  assert (Hhigh : forall rate0 l,
    List.filter is_cost_threshold
      (map (fun device =>
              Device.HighPowerDevice (App.device_name device) (App.power device)
                (App.power device / 1000 * rate0)%float) l) = []).
  { intros rate0 l. induction l; simpl; auto. }
  rewrite Hhigh, app_nil_r.
  destruct (PrimFloat.ltb 0 (positive_power_total _ / 1000 * rate)%float); simpl;
    destruct (PrimFloat.ltb 0 _); reflexivity.
Qed.

Lemma cost_threshold_alert_witness :
  let dev := Device.mkState (Some day) 0 (2026, 0, 15) 0 0 [] in
  exists dev' app' events,
    Device.updateCostTracking st_flat app_2000 (minute_clock 60)
      (minute_clock 60) dev
      = Some (dev', app', events) /\
    List.filter is_cost_threshold events =
      [Device.CostThresholdExceeded 0.24 2000 0.24].
Proof.
  intros dev.
  destruct (cost_threshold_alert st_flat app_2000 (minute_clock 60)
      (minute_clock 60) dev
              None 0.12%float eq_refl eq_refl)
    as (dev' & app' & events & Hrun & Hsnapshot & Hevents).
  exists dev', app', events. split; [exact Hrun|].
  rewrite Hevents, Hsnapshot. vm_compute. reflexivity.
Defined.

(** ** Tariff-change trigger *)

Lemma Tariff_eqb_eq (a b : Tariff) : Tariff_eqb a b = true <-> a = b.
Proof. destruct a, b; simpl; split; congruence. Qed.

(** After either run the device has recorded the day of its clock reading. *)
Lemma recorded_day clock dev :
  (if day_advanced clock dev then toDateString clock
   else Device.lastResetDate dev) = toDateString clock.
Proof.
  unfold day_advanced.
  destruct (DateKey_eqb _ _) eqn:E; simpl; [|reflexivity].
  apply DateKey_eqb_eq, E.
Qed.

Lemma checkAlerts_no_tariff_changed dev costPerHour costToday rate :
  List.filter is_tariff_changed
    (Device.checkAlerts dev costPerHour costToday rate) = [].
Proof.
  unfold Device.checkAlerts. rewrite !List.filter_app.
  assert (Hhigh : forall l,
    List.filter is_tariff_changed
      (map (fun device =>
              Device.HighPowerDevice (App.device_name device) (App.power device)
                (App.power device / 1000 * rate)%float) l) = []).
  { intros l. induction l; simpl; auto. }
  rewrite Hhigh.
  destruct (PrimFloat.ltb 0 costPerHour), (PrimFloat.ltb 0 costToday); reflexivity.
Qed.

(** A run of [updateCostTracking] that the model covers has read a season
    and a numeric rate. *)
Lemma updateCostTracking_inside st app clock recorded dev r :
  Device.updateCostTracking st app clock recorded dev = Some r ->
  exists season rate,
    Device.getCurrentSeason st clock = Some season /\
    JS.ToNumber (Device.getCurrentRate st (Device.getCurrentTariff season clock))
      = Some rate.
Proof.
  unfold Device.updateCostTracking. intros Hrun.
  destruct (Device.getCurrentSeason st clock) as [season|]; [|discriminate].
  simpl in Hrun.
  destruct (JS.ToNumber _) as [rate|] eqn:Hrate; [|discriminate].
  exists season, rate. split; [reflexivity | exact Hrate].
Qed.

(** [updateCostTracking] triggers no tariff-changed event and leaves the
    counter and the observed tariff alone; it records the day of its clock
    reading. *)
Lemma updateCostTracking_frame st app clock recorded dev dev2 app2 events2 :
  Device.updateCostTracking st app clock recorded dev
      = Some (dev2, app2, events2) ->
  List.filter is_tariff_changed events2 = [] /\
  Device.tariffChangesToday dev2 = Device.tariffChangesToday dev /\
  Device.lastTariff dev2 = Device.lastTariff dev /\
  Device.lastResetDate dev2 = toDateString clock.
Proof.
  intros Hrun.
  destruct (updateCostTracking_inside st app clock recorded dev _ Hrun)
    as (season & rate & Hseason & Hrate).
  rewrite (updateCostTracking_result st app clock recorded dev season rate
      Hseason Hrate)
    in Hrun.
  injection Hrun as <- _ <-.
  split; [apply checkAlerts_no_tariff_changed|]. repeat split; reflexivity.
Qed.

(** What [trackTariffChanges] does with the tariff it is handed: it triggers
    one tariff-changed event, with the previous tariff, the new tariff and
    its rate, and adds 1 to the counter, exactly when a previous tariff has
    been observed and differs from the new one; otherwise it triggers nothing
    and adds nothing.  The counter it adds to is 0 when the day of its clock
    reading is not the recorded [lastResetDate], and the counter as it was
    otherwise.  [updateTariffValues] does this with the tariff resolved at
    its clock reading. *)
Lemma trackTariffChanges_edge st tariff now dev :
  let dev' := (Device.trackTariffChanges st tariff now dev).1 in
  let events := (Device.trackTariffChanges st tariff now dev).2 in
  let base := if day_advanced now dev then 0 else Device.tariffChangesToday dev in
  Device.lastTariff dev' = Some tariff /\
  Device.lastResetDate dev' = toDateString now /\
  (forall previous,
      Device.lastTariff dev = Some previous -> previous <> tariff ->
      events =
        [Device.TariffChanged previous tariff (Device.getCurrentRate st tariff)] /\
      Device.tariffChangesToday dev' = base + 1) /\
  (Device.lastTariff dev = None \/ Device.lastTariff dev = Some tariff ->
   events = [] /\ Device.tariffChangesToday dev' = base) /\
  (forall season,
      Device.getCurrentSeason st now = Some season ->
      Device.updateTariffValues st now dev =
      Some (Device.trackTariffChanges
              st (Device.getCurrentTariff season now) now dev)).
Proof.
  intros dev' events base. subst dev' events base.
  pose proof (recorded_day now dev) as Hdate.
  unfold Device.trackTariffChanges. fold (day_advanced now dev).
  split; [|split; [|split; [|split]]].
  - destruct (Device.lastTariff dev) as [previous|]; [|reflexivity].
    destruct (Tariff_eqb previous tariff); reflexivity.
  - destruct (Device.lastTariff dev) as [previous|]; [|exact Hdate].
    destruct (Tariff_eqb previous tariff); exact Hdate.
  - intros previous Hprevious Hne. rewrite Hprevious.
    destruct (Tariff_eqb previous tariff) eqn:E; [|split; reflexivity].
    apply Tariff_eqb_eq in E. contradiction.
  - intros [Hnone | Hsame]; [rewrite Hnone | rewrite Hsame].
    + split; reflexivity.
    + rewrite (proj2 (Tariff_eqb_eq tariff tariff) eq_refl). split; reflexivity.
  - intros season Hseason. unfold Device.updateTariffValues.
    rewrite Hseason. reflexivity.
Qed.

(** ** The interval tick across midnight *)

Lemma trackTariffChanges_cost st tariff now dev :
  let dev' := (Device.trackTariffChanges st tariff now dev).1 in
  Device.costToday dev' = Device.costToday dev /\
  Device.lastCostUpdate dev' = Device.lastCostUpdate dev /\
  Device.lastResetDate dev' = toDateString now.
Proof.
  pose proof (recorded_day now dev) as Hdate.
  unfold Device.trackTariffChanges. fold (day_advanced now dev).
  destruct (Device.lastTariff dev) as [previous|];
    [destruct (Tariff_eqb previous tariff)|]; simpl; auto.
Qed.

(** In an interval tick whose two clock readings are on one calendar day,
    [updateCostTracking] never resets [costToday]: [updateTariffValues] has
    recorded the day before it runs. *)
Lemma interval_tick_cost st app clock1 clock2 clock3 dev season1 season2 rate :
  Device.getCurrentSeason st clock1 = Some season1 ->
  Device.getCurrentSeason st clock2 = Some season2 ->
  JS.ToNumber (Device.getCurrentRate st (Device.getCurrentTariff season2 clock2))
    = Some rate ->
  toDateString clock1 = toDateString clock2 ->
  exists dev' app' events,
    Device.interval_tick st app clock1 clock2 clock3 dev
        = Some (dev', app', events) /\
    Device.costToday dev' =
    (Device.costToday dev +
     positive_power_total (Device.getDevicesWithPower app) / 1000 *
     dt_hours clock2 dev * rate)%float.
Proof.
  intros Hseason1 Hseason2 Hrate Hday. unfold Device.interval_tick.
  unfold Device.updateTariffValues. rewrite Hseason1. simpl.
  destruct (Device.trackTariffChanges st (Device.getCurrentTariff season1 clock1)
              clock1 dev) as [dev1 events1] eqn:Htrack.
  pose proof (trackTariffChanges_cost st (Device.getCurrentTariff season1 clock1)
                clock1 dev) as Hcost.
  rewrite Htrack in Hcost. simpl in Hcost. destruct Hcost as (Hc & Hu & Hd).
  simpl.
  rewrite (updateCostTracking_result st app clock2 clock3 dev1 season2 rate
      Hseason2 Hrate).
  simpl. do 3 eexists. split; [reflexivity|]. simpl.
  unfold day_advanced, dt_hours. rewrite Hd, Hday, DateKey_eqb_refl, Hc, Hu.
  reflexivity.
Qed.

(** C1.  The first interval tick of Jan 15, one minute after the last update
    of Jan 14, on a device that has accrued 1.5 during Jan 14: the day has
    advanced, yet [costToday] after the tick is 1.5 plus the increment of the
    tick, not the increment alone.  [trackTariffChanges] runs first, sets the
    counter to 0 and records the new day in [lastResetDate], the field
    [updateCostTracking] tests for its own reset.  [updateCostTracking] run
    on its own at the same reading does reset [costToday]. *)
Theorem midnight_tick_keeps_cost :
  let dev := Device.mkState (Some night) 2 (2026, 0, 14) 1.5 0 [] in
  let clock := mkClock 60000 2026 0 15 0 0 in
  let increment := (2000 / 1000 * (60000 / 1000 / 3600) * 0.06)%float in
  day_advanced clock dev = true /\
  (exists dev' app' events,
      Device.interval_tick st_default app_2000 clock clock clock dev
        = Some (dev', app', events) /\
      Device.lastResetDate dev' = toDateString clock /\
      Device.tariffChangesToday dev' = 0 /\
      Device.costToday dev' = (1.5 + increment)%float /\
      Device.costToday dev' <> increment) /\
  (exists dev' app' events,
      Device.updateCostTracking st_default app_2000 clock clock dev
        = Some (dev', app', events) /\
      Device.costToday dev' = increment).
Proof.
  intros dev clock increment. split; [reflexivity|]. split.
  - do 3 eexists. split; [vm_compute; reflexivity|].
    split; [reflexivity|]. split; [reflexivity|]. split; [reflexivity|].
    intros H.
    apply (f_equal (fun x => PrimFloat.eqb x increment)) in H.
    vm_compute in H. discriminate.
  - do 3 eexists. split; [vm_compute; reflexivity|]. reflexivity.
Qed.

(** ** An interval tick that straddles midnight *)

(** Without a new day at its clock reading [trackTariffChanges] never lowers
    the counter. *)
Lemma trackTariffChanges_same_day st tariff now dev :
  toDateString now = Device.lastResetDate dev ->
  Device.tariffChangesToday dev <=
  Device.tariffChangesToday (Device.trackTariffChanges st tariff now dev).1.
Proof.
  intros Hday. unfold Device.trackTariffChanges.
  rewrite <- Hday, DateKey_eqb_refl. simpl.
  destruct (Device.lastTariff dev) as [previous|];
    [destruct (Tariff_eqb previous tariff)|]; simpl; lia.
Qed.

(** An interval tick whose first clock reading is of the recorded day: the
    device records the day of the second reading, whichever it is, and the
    counter is lowered neither in this tick nor by any later
    [trackTariffChanges] that reads a clock of that day.  When the second
    reading is of the next day, the count of the old day is carried into the
    new one. *)
Lemma interval_tick_counter st app clock1 clock2 clock3 dev dev' app' events :
  Device.interval_tick st app clock1 clock2 clock3 dev
    = Some (dev', app', events) ->
  toDateString clock1 = Device.lastResetDate dev ->
  Device.lastResetDate dev' = toDateString clock2 /\
  Device.tariffChangesToday dev <= Device.tariffChangesToday dev' /\
  (forall tariff now,
      toDateString now = toDateString clock2 ->
      Device.tariffChangesToday dev' <=
      Device.tariffChangesToday (Device.trackTariffChanges st tariff now dev').1).
Proof.
  unfold Device.interval_tick, Device.updateTariffValues. intros Htick Hday.
  destruct (Device.getCurrentSeason st clock1) as [season|]; [|discriminate].
  simpl in Htick.
  pose proof (trackTariffChanges_same_day st
                (Device.getCurrentTariff season clock1) clock1 dev Hday) as Hdev1.
  destruct (Device.trackTariffChanges st (Device.getCurrentTariff season clock1)
              clock1 dev) as [dev1 events1].
  simpl in Htick, Hdev1.
  destruct (Device.updateCostTracking st app clock2 clock3 dev1)
    as [[[dev2 app2] events2]|] eqn:Hrun; [|discriminate].
  simpl in Htick. injection Htick as <- _ _.
  destruct (updateCostTracking_frame st app clock2 clock3 dev1 _ _ _ Hrun)
    as (_ & Hcount & _ & Hdate).
  split; [exact Hdate|]. split; [lia|].
  intros tariff now Hnow. apply trackTariffChanges_same_day.
  rewrite Hdate. exact Hnow.
Qed.

(** C7.  An interval tick whose two clock readings straddle midnight, on a
    device that has counted 2 tariff changes during Jan 14:
    [updateTariffValues] reads the clock at 23:59:59.990 of Jan 14, so its
    [trackTariffChanges] sees no new day, and [updateCostTracking] reads it
    at 00:00:00.040 of Jan 15 and records Jan 15 in [lastResetDate], the
    field [trackTariffChanges] tests for its reset.  At the next tick, the
    first in which [trackTariffChanges] reads a clock of Jan 15, the day
    is the recorded one and the counter is not reset: it is still 2, and the
    change from night to day after 06:00, the first change of Jan 15, makes
    it 3.  When both readings of the first tick are of Jan 15 the counter is
    reset to 0 and the same change makes it 1. *)
Theorem straddled_midnight_keeps_counter :
  let dev :=
    Device.mkState (Some night) 2 (2026, 0, 14) 1.5 1768435140040 [] in
  let a1 := mkClock 1768435199990 2026 0 14 23 59 in
  let a2 := mkClock 1768435200040 2026 0 15 0 0 in
  let a3 := mkClock 1768435200090 2026 0 15 0 0 in
  let b1 := mkClock 1768435259990 2026 0 15 0 0 in
  let b2 := mkClock 1768435260040 2026 0 15 0 1 in
  let b3 := mkClock 1768435260090 2026 0 15 0 1 in
  let c1 := mkClock 1768456859990 2026 0 15 6 0 in
  let c2 := mkClock 1768456860040 2026 0 15 6 1 in
  let c3 := mkClock 1768456860090 2026 0 15 6 1 in
  let changed := [Device.TariffChanged night day (JS.VNum 0.12)] in
  (exists devA appA eventsA devB appB eventsB devC appC eventsC,
      Device.interval_tick st_default app_2000 a1 a2 a3 dev
        = Some (devA, appA, eventsA) /\
      Device.tariffChangesToday devA = 2 /\
      Device.lastResetDate devA = toDateString a2 /\
      day_advanced b1 devA = false /\
      Device.interval_tick st_default appA b1 b2 b3 devA
        = Some (devB, appB, eventsB) /\
      Device.tariffChangesToday devB = 2 /\
      Device.interval_tick st_default appB c1 c2 c3 devB
        = Some (devC, appC, eventsC) /\
      List.filter is_tariff_changed eventsC = changed /\
      Device.lastResetDate devC = toDateString c2 /\
      Device.tariffChangesToday devC = 3) /\
  (exists devA appA eventsA devB appB eventsB devC appC eventsC,
      Device.interval_tick st_default app_2000 a2 a2 a3 dev
        = Some (devA, appA, eventsA) /\
      Device.tariffChangesToday devA = 0 /\
      Device.interval_tick st_default appA b1 b2 b3 devA
        = Some (devB, appB, eventsB) /\
      Device.tariffChangesToday devB = 0 /\
      Device.interval_tick st_default appB c1 c2 c3 devB
        = Some (devC, appC, eventsC) /\
      List.filter is_tariff_changed eventsC = changed /\
      Device.tariffChangesToday devC = 1).
Proof.
  intros dev a1 a2 a3 b1 b2 b3 c1 c2 c3 changed. split.
  - do 9 eexists.
    split; [vm_compute; reflexivity|]. split; [reflexivity|].
    split; [reflexivity|]. split; [reflexivity|].
    split; [vm_compute; reflexivity|]. split; [reflexivity|].
    split; [vm_compute; reflexivity|]. split; [reflexivity|].
    split; reflexivity.
  - do 9 eexists.
    split; [vm_compute; reflexivity|]. split; [reflexivity|].
    split; [vm_compute; reflexivity|]. split; [reflexivity|].
    split; [vm_compute; reflexivity|]. split; reflexivity.
Qed.

(** * Further properties *)

(** ** Season calendar *)

(** X1.  For a season that does not wrap ([startMonth <= endMonth]) both
    copies of [isDateInSeason] hold exactly for the dates from the start to
    the end, both included, in the lexicographic order on (month, day); a
    season that starts and ends in the same month with its start day after its
    end day holds no date at all. *)
Theorem plain_season_membership season month d :
  startMonth season <= endMonth season ->
  (Device.isDateInSeason month d season = true <->
   date_le (startMonth season, startDay season) (month, d) /\
   date_le (month, d) (endMonth season, endDay season)) /\
  (App.isDateInSeason month d season = true <->
   date_le (startMonth season, startDay season) (month, d) /\
   date_le (month, d) (endMonth season, endDay season)) /\
  (date_le (startMonth season, startDay season) (endMonth season, endDay season) ->
   Device.isDateInSeason (startMonth season) (startDay season) season = true /\
   Device.isDateInSeason (endMonth season) (endDay season) season = true) /\
  (startMonth season = endMonth season -> startDay season > endDay season ->
   Device.isDateInSeason month d season = false).
Proof.
  intros Hplain.
  pose proof (isDateInSeason_plain month d season Hplain) as Hiff.
  split; [exact Hiff|]. split; [exact Hiff|]. split.
  - intros Hle. split; apply (isDateInSeason_plain _ _ season Hplain);
      (split; [|try exact Hle]); try exact Hle; unfold date_le; simpl; lia.
  - intros Hsame Hrev.
    destruct (Device.isDateInSeason month d season); [|reflexivity].
    exfalso. destruct (proj1 Hiff eq_refl) as [H1 H2].
    unfold date_le in *; simpl in *; lia.
Qed.

Lemma plain_season_membership_witness :
  let summer := mkSeason "Summer" 4 1 10 31 (Some "07:00") (Some "23:00") in
  Device.isDateInSeason 4 1 summer = true /\
  Device.isDateInSeason 10 31 summer = true.
Proof.
  intros summer.
  assert (Hplain : startMonth summer <= endMonth summer) by (simpl; lia).
  split.
  - apply (proj1 (plain_season_membership summer 4 1 Hplain)).
    unfold date_le; simpl; lia.
  - apply (proj1 (plain_season_membership summer 10 31 Hplain)).
    unfold date_le; simpl; lia.
Defined.

Lemma getCurrentSeason_app_device st now :
  App.getCurrentSeason st now = Device.getCurrentSeason st now.
Proof. reflexivity. Qed.

Lemma find_first {A} (f : A -> bool) (l : list A) i x :
  l !! i = Some x -> f x = true ->
  (forall j y, (j < i)%nat -> l !! j = Some y -> f y = false) ->
  find f l = Some x.
Proof.
  revert i. induction l as [|a l IH]; intros [|i] Hx Hfx Hbefore; simpl in *;
    try discriminate.
  - injection Hx as ->. rewrite Hfx. reflexivity.
  - rewrite (Hbefore O a ltac:(lia) eq_refl).
    apply (IH i Hx Hfx). intros j y Hj Hy. apply (Hbefore (S j) y); [lia|exact Hy].
Qed.

(** X2.  [getCurrentSeason] of both files, on a list of seasons: with no
    season it is [null]; otherwise it is a season of the list, the first in
    list order that holds the date (so of overlapping seasons the earlier one
    wins), and the first season of the list when none holds the date. *)
Theorem current_season_choice st now seasons :
  settings_seasons st = Some seasons ->
  let month := getMonth now + 1 in
  let d := getDate now in
  let current := Device.getCurrentSeason st now in
  App.getCurrentSeason st now = current /\
  (seasons = [] -> current = Some None) /\
  (seasons <> [] -> exists season, current = Some (Some season) /\ season ∈ seasons) /\
  (forall i season,
      seasons !! i = Some season ->
      Device.isDateInSeason month d season = true ->
      (forall j earlier, (j < i)%nat -> seasons !! j = Some earlier ->
                         Device.isDateInSeason month d earlier = false) ->
      current = Some (Some season)) /\
  ((forall season, season ∈ seasons ->
                   Device.isDateInSeason month d season = false) ->
   current = Some (head seasons)).
Proof.
  intros Hseasons month d current. subst current.
  split; [reflexivity|].
  unfold Device.getCurrentSeason. rewrite Hseasons. simpl.
  fold month. fold d.
  split; [|split; [|split]].
  - intros ->. reflexivity.
  - intros Hne.
    destruct (find (Device.isDateInSeason month d) seasons) as [season|] eqn:Hfind.
    + exists season. split; [reflexivity|].
      apply find_some in Hfind as [Hin _]. apply list_elem_of_In, Hin.
    + destruct seasons as [|season rest]; [contradiction|].
      exists season. split; [reflexivity|]. apply list_elem_of_here.
  - intros i season Hi Hin Hbefore.
    rewrite (find_first _ seasons i season Hi Hin Hbefore). reflexivity.
  - intros Hnone.
    destruct (find (Device.isDateInSeason month d) seasons) as [season|] eqn:Hfind;
      [|reflexivity].
    apply find_some in Hfind as [Hin Htrue].
    rewrite (Hnone season) in Htrue by (apply list_elem_of_In, Hin). discriminate.
Qed.

Lemma current_season_choice_witness :
  let now := mkClock 0 2026 6 4 12 0 in
  Device.getCurrentSeason st_default now =
  Some (Some (mkSeason "Summer" 4 1 10 31 (Some "07:00") (Some "23:00"))).
Proof.
  intros now.
  destruct (current_season_choice st_default now AppRest.default_seasons eq_refl)
    as (_ & _ & _ & Hfirst & _).
  apply (Hfirst 1%nat); [reflexivity | reflexivity |].
  intros [|j] earlier Hj Hearlier; [|lia].
  injection Hearlier as <-. reflexivity.
Defined.

Lemma below_n (n : nat) (P : Z -> bool) :
  forallb P (range n) = true -> forall z, 0 <= z < Z.of_nat n -> P z = true.
Proof.
  intros H z Hz. rewrite forallb_forall in H. apply H, range_complete, Hz.
Qed.

(** X3.  With the two seasons that [initializeSettings] stores, every date of
    the calendar is in exactly one of them: [getCurrentSeason] answers Winter
    from November to March and Summer from April to October, and never has to
    fall back to the first season. *)
Theorem default_seasons_cover_year st now :
  settings_seasons st = Some AppRest.default_seasons ->
  0 <= getMonth now < 12 ->
  1 <= getDate now <= 31 ->
  let month := getMonth now + 1 in
  let winter := mkSeason "Winter" 11 1 3 31 (Some "06:00") (Some "22:00") in
  let summer := mkSeason "Summer" 4 1 10 31 (Some "07:00") (Some "23:00") in
  Device.isDateInSeason month (getDate now) winter =
    negb (Device.isDateInSeason month (getDate now) summer) /\
  Device.isDateInSeason month (getDate now) winter =
    ((month <=? 3) || (11 <=? month)) /\
  Device.getCurrentSeason st now =
    Some (Some (if (month <=? 3) || (11 <=? month) then winter else summer)) /\
  App.getCurrentSeason st now = Device.getCurrentSeason st now.
Proof.
  intros Hseasons Hmonth Hdate month winter summer.
  pose (check := fun m0 : Z => forallb (fun d : Z =>
    let m := m0 + 1 in
    Bool.eqb (Device.isDateInSeason m d winter)
             (negb (Device.isDateInSeason m d summer)) &&
    Bool.eqb (Device.isDateInSeason m d winter) ((m <=? 3) || (11 <=? m)) ||
    (d <? 1)) (range 32)).
  assert (Hcheck : check (getMonth now) = true).
  { apply (below_n 12 check); [vm_compute; reflexivity | lia]. }
  unfold check in Hcheck.
  pose proof (below_n 32 _ Hcheck (getDate now) ltac:(lia)) as Hd.
  simpl in Hd. fold month in Hd.
  apply orb_prop in Hd as [Hd|Hd]; [|apply Z.ltb_lt in Hd; lia].
  apply andb_prop in Hd as [H1 H2].
  apply Bool.eqb_prop in H1, H2.
  split; [exact H1|]. split; [exact H2|]. split; [|reflexivity].
  unfold Device.getCurrentSeason. rewrite Hseasons. simpl. fold month.
  fold winter. fold summer. rewrite H2.
  destruct ((month <=? 3) || (11 <=? month)) eqn:E; [reflexivity|].
  rewrite H2 in H1. destruct (Device.isDateInSeason month (getDate now) summer);
    [reflexivity | discriminate].
Qed.

Lemma default_seasons_cover_year_witness :
  let now := mkClock 0 2026 0 15 8 0 in
  Device.getCurrentSeason st_default now =
  Some (Some (mkSeason "Winter" 11 1 3 31 (Some "06:00") (Some "22:00"))).
Proof.
  intros now.
  destruct (default_seasons_cover_year st_default now eq_refl) as (_ & _ & H & _);
    [simpl; lia | simpl; lia |].
  exact H.
Defined.

(** ** Settings defaults *)

Lemma set_if_null_lookup key value (st : Settings) (k : string) :
  AppRest.set_if_null key value st !! k =
  if decide (k = key) then
    match settings_get st key with
    | JS.VNull => Some value
    | _ => st !! k
    end
  else st !! k.
Proof.
  unfold AppRest.set_if_null.
  destruct (decide (k = key)) as [->|Hne].
  - destruct (settings_get st key); try reflexivity. apply lookup_insert_eq.
  - destruct (settings_get st key); try reflexivity.
    apply lookup_insert_ne. congruence.
Qed.

Lemma set_if_null_get key value (st : Settings) (k : string) :
  settings_get (AppRest.set_if_null key value st) k =
  if decide (k = key) then
    match settings_get st key with
    | JS.VNull => value
    | v => v
    end
  else settings_get st k.
Proof.
  unfold settings_get at 1. rewrite set_if_null_lookup.
  destruct (decide (k = key)) as [->|Hne]; [|reflexivity].
  unfold settings_get. destruct (st !! key) as [[]|]; reflexivity.
Qed.

Lemma initializeSettings_lookup (st : Settings) (k : string) :
  AppRest.initializeSettings st !! k =
  if decide (k ∈ settings_keys) then
    match settings_get st k with
    | JS.VNull => Some (default_of k)
    | _ => st !! k
    end
  else st !! k.
Proof.
  unfold AppRest.initializeSettings.
  destruct (decide (k ∈ settings_keys)) as [Hin|Hnotin].
  - unfold settings_keys in Hin. rewrite !elem_of_cons, elem_of_nil in Hin.
    destruct Hin as [->|[->|[->|[->|[]]]]];
      repeat (rewrite set_if_null_lookup; simpl);
      repeat (rewrite set_if_null_get; simpl);
      reflexivity.
  - unfold settings_keys in Hnotin.
    rewrite !not_elem_of_cons in Hnotin. destruct Hnotin as (?&?&?&?&_).
    rewrite !set_if_null_lookup, !decide_False by assumption. reflexivity.
Qed.

Lemma initializeSettings_get (st : Settings) (k : string) :
  k ∈ settings_keys ->
  settings_get (AppRest.initializeSettings st) k =
  match settings_get st k with
  | JS.VNull => default_of k
  | v => v
  end.
Proof.
  intros Hin. unfold settings_get at 1.
  rewrite initializeSettings_lookup, decide_True by exact Hin.
  unfold settings_get. destruct (st !! k) as [[]|]; reflexivity.
Qed.

Lemma default_of_not_null (k : string) : default_of k <> JS.VNull.
Proof. unfold default_of. repeat destruct (decide _); discriminate. Qed.

(** X4.  [initializeSettings] stores the default (0.12, 0.06, the Winter and
    Summer seasons, EUR) for exactly those of its four keys that read [null],
    and changes no other stored value: a rate of 0 or an empty season list
    that is already stored stays.  Afterwards none of the four keys reads
    [null], and running it again changes nothing. *)
Theorem initializeSettings_defaults (st : Settings) :
  let st' := AppRest.initializeSettings st in
  (forall key, key ∈ settings_keys -> settings_get st key = JS.VNull ->
               st' !! key = Some (default_of key)) /\
  (forall key, settings_get st key <> JS.VNull -> st' !! key = st !! key) /\
  (forall key, key ∉ settings_keys -> st' !! key = st !! key) /\
  (forall key, key ∈ settings_keys -> settings_get st' key <> JS.VNull) /\
  AppRest.initializeSettings st' = st' /\
  AppRest.initializeSettings ∅ = st_default.
Proof.
  intros st'. subst st'. split; [|split; [|split; [|split; [|split]]]].
  - intros key Hin Hnull.
    rewrite initializeSettings_lookup, decide_True, Hnull by exact Hin.
    reflexivity.
  - intros key Hset. rewrite initializeSettings_lookup.
    destruct (decide _); [|reflexivity].
    destruct (settings_get st key); try reflexivity. contradiction.
  - intros key Hnotin.
    rewrite initializeSettings_lookup, decide_False by exact Hnotin.
    reflexivity.
  - intros key Hin. rewrite initializeSettings_get by exact Hin.
    destruct (settings_get st key) eqn:E; try discriminate.
    apply default_of_not_null.
  - apply map_eq. intros k.
    rewrite (initializeSettings_lookup (AppRest.initializeSettings st) k).
    destruct (decide (k ∈ settings_keys)) as [Hin|]; [|reflexivity].
    rewrite (initializeSettings_get st k Hin).
    destruct (settings_get st k) eqn:E; try reflexivity.
    pose proof (default_of_not_null k) as Hd.
    destruct (default_of k); try reflexivity. contradiction.
  - apply map_eq. intros k. rewrite initializeSettings_lookup.
    destruct (decide (k ∈ settings_keys)) as [Hin|Hnotin].
    + unfold settings_keys in Hin. rewrite !elem_of_cons, elem_of_nil in Hin.
      destruct Hin as [->|[->|[->|[->|[]]]]]; reflexivity.
    + unfold settings_keys in Hnotin.
      rewrite !not_elem_of_cons in Hnotin. destruct Hnotin as (?&?&?&?&_).
      rewrite lookup_empty. unfold st_default.
      rewrite !lookup_insert_ne by congruence. symmetry.
      apply lookup_singleton_ne. congruence.
Qed.

Lemma initializeSettings_defaults_witness :
  let st : Settings := {[ "dayRate" := JS.VNum 0 ]} in
  AppRest.initializeSettings st !! "dayRate" = Some (JS.VNum 0) /\
  AppRest.initializeSettings st !! "nightRate" = Some (JS.VNum 0.06).
Proof.
  intros st.
  destruct (initializeSettings_defaults st) as (Hnull & Hset & _).
  split.
  - rewrite (Hset "dayRate"); [reflexivity | discriminate].
  - rewrite (Hnull "nightRate"); [reflexivity | | reflexivity].
    unfold settings_keys. set_solver.
Defined.

(** ** Tariff resolver *)

(** X5.  The clock string that [getCurrentTariff] builds with [padStart]
    reads back, through the [split(':').map(Number)] of the minute
    computations, as the hour and the minute of the clock; it always has five
    characters. *)
Theorem clock_string_round_trip now :
  clock_ok now ->
  hour_minute (currentTime now) = Some (getHours now, getMinutes now) /\
  String.length (currentTime now) = 5%nat.
Proof.
  intros Hnow. rewrite (currentTime_hhmm now Hnow). destruct Hnow as [Hh Hm].
  split; [apply hour_minute_hhmm; assumption | reflexivity].
Qed.

Lemma clock_string_round_trip_witness :
  let now := mkClock 0 2026 0 15 8 5 in
  hour_minute (currentTime now) = Some (8, 5).
Proof.
  intros now. apply (clock_string_round_trip now). unfold clock_ok; simpl; lia.
Defined.





(** X7.  With no season configured (the setting unset, or an empty list)
    [getCurrentSeason] is [null], the tariff is [day] at every time in both
    files, the rate is the day rate, the minutes until the next change read 0,
    and [updateTariffValues] triggers a tariff-changed event only if the
    device had last observed [night]. *)
Theorem no_season_is_always_day st now :
  settings_seasons st = Some [] ->
  Device.getCurrentSeason st now = Some None /\
  App.getCurrentTariff st now = Some day /\
  App.getCurrentRate st now =
    Some (JS.or (settings_get st "dayRate") (JS.VNum 0.12)) /\
  (forall tariff, Device.getMinutesUntilChange None tariff now = Some 0) /\
  (forall dev, exists dev' events,
      Device.updateTariffValues st now dev = Some (dev', events) /\
      Device.lastTariff dev' = Some day /\
      (Device.lastTariff dev <> Some night -> events = [])) /\
  (st !! "seasons" = None -> settings_seasons st = Some []).
Proof.
  intros Hnone.
  assert (Hseason : Device.getCurrentSeason st now = Some None).
  { unfold Device.getCurrentSeason. rewrite Hnone. reflexivity. }
  assert (Htariff : App.getCurrentTariff st now = Some day).
  { rewrite (app_getCurrentTariff_device st now None); [reflexivity|].
    rewrite getCurrentSeason_app_device. exact Hseason. }
  split; [exact Hseason|]. split; [exact Htariff|].
  split; [|split; [|split]].
  - unfold App.getCurrentRate. rewrite Htariff. reflexivity.
  - intros tariff. reflexivity.
  - intros dev. unfold Device.updateTariffValues. rewrite Hseason. simpl.
    exists (Device.trackTariffChanges st day now dev).1,
           (Device.trackTariffChanges st day now dev).2.
    split; [destruct (Device.trackTariffChanges st day now dev); reflexivity|].
    unfold Device.trackTariffChanges.
    destruct (Device.lastTariff dev) as [[]|]; simpl; split; auto.
    intros Hnot. contradiction.
  - intros Hunset. unfold settings_seasons, settings_get. rewrite Hunset.
    reflexivity.
Qed.

Lemma no_season_is_always_day_witness :
  let now := mkClock 0 2026 0 15 23 0 in
  App.getCurrentTariff ∅ now = Some day.
Proof.
  intros now.
  assert (Hnone : settings_seasons ∅ = Some []) by (vm_compute; reflexivity).
  destruct (no_season_is_always_day ∅ now Hnone) as (_ & Htariff & _).
  exact Htariff.
Defined.

(** ** Settings API *)

Lemma getSettings_field (homey : Settings) (key : string) :
  key ∈ settings_keys ->
  view_get (Api.getSettings homey) key =
  JS.or (settings_get homey key) (fallback_of key).
Proof.
  intros Hin. unfold settings_keys in Hin.
  rewrite !elem_of_cons, elem_of_nil in Hin.
  destruct Hin as [->|[->|[->|[->|[]]]]]; reflexivity.
Qed.

(** X8.  [getSettings] after [putSettings] returns, for each of the four
    keys the body holds, the value of the body when it is truthy and the
    fallback of the key otherwise, and for each key the body leaves out what
    it returned before.  [putSettings] with an empty body changes nothing,
    applying the same body twice is the same as once, and two requests in a
    row act as one whose body is the second over the first. *)
Theorem put_then_get (homey : Settings) (body : gmap string JS.jsval) :
  let homey' := (Api.putSettings homey body).1 in
  (forall key v, key ∈ settings_keys -> body !! key = Some v ->
     view_get (Api.getSettings homey') key = JS.or v (fallback_of key)) /\
  (forall key v, key ∈ settings_keys -> body !! key = Some v ->
     JS.truthy v = true -> view_get (Api.getSettings homey') key = v) /\
  (forall key, key ∈ settings_keys -> body !! key = None ->
     view_get (Api.getSettings homey') key = view_get (Api.getSettings homey) key) /\
  (Api.putSettings homey ∅).1 = homey /\
  (Api.putSettings homey' body).1 = homey' /\
  (forall body2 : gmap string JS.jsval,
     (Api.putSettings homey' body2).1 = (Api.putSettings homey (body2 ∪ body)).1).
Proof.
  intros homey'. subst homey'.
  assert (Hget : forall key v, key ∈ settings_keys -> body !! key = Some v ->
     view_get (Api.getSettings (Api.putSettings homey body).1) key
     = JS.or v (fallback_of key)).
  { intros key v Hin Hbody. rewrite getSettings_field by exact Hin.
    unfold settings_get. rewrite putSettings_lookup, decide_True, Hbody by exact Hin.
    reflexivity. }
  split; [exact Hget|]. split; [|split; [|split; [|split]]].
  - intros key v Hin Hbody Htruthy. rewrite (Hget key v Hin Hbody).
    unfold JS.or. rewrite Htruthy. reflexivity.
  - intros key Hin Hbody. rewrite !getSettings_field by exact Hin.
    unfold settings_get. rewrite putSettings_lookup, Hbody.
    destruct (decide _); reflexivity.
  - apply map_eq. intros k. rewrite putSettings_lookup, lookup_empty.
    destruct (decide _); reflexivity.
  - apply map_eq. intros k. rewrite !putSettings_lookup.
    destruct (decide _); [|reflexivity]. destruct (body !! k); reflexivity.
  - intros body2. apply map_eq. intros k. rewrite !putSettings_lookup.
    destruct (decide _); [|reflexivity].
    rewrite lookup_union.
    destruct (body2 !! k), (body !! k); reflexivity.
Qed.

Lemma put_then_get_witness :
  let body : gmap string JS.jsval :=
    {[ "dayRate" := JS.VNum 0.2; "nightRate" := JS.VNum 0 ]} in
  Api.dayRate (Api.getSettings (Api.putSettings st_default body).1) = JS.VNum 0.2 /\
  Api.nightRate (Api.getSettings (Api.putSettings st_default body).1) = JS.VNum 0.06.
Proof.
  intros body.
  destruct (put_then_get st_default body) as (Hget & Htruthy & _).
  split.
  - apply (Htruthy "dayRate"); [unfold settings_keys; set_solver | reflexivity..].
  - apply (Hget "nightRate" (JS.VNum 0)); [unfold settings_keys; set_solver|].
    reflexivity.
Defined.

(** ** Order of the powers *)

Lemma SFcompare_opp x y :
  SFcompare y x = option_map CompOpp (SFcompare x y).
Proof.
  destruct x as [sx|sx| |sx mx ex], y as [sy|sy| |sy my ey]; simpl;
    try reflexivity; try (destruct sx; reflexivity); try (destruct sy; reflexivity);
    try (destruct sx, sy; reflexivity).
  rewrite !Pos.compare_cont_spec; simpl.
  rewrite (Z.compare_antisym ex ey), (Pos.compare_antisym mx my).
  destruct sx, sy; simpl; try reflexivity;
    destruct (ex ?= ey)%Z; simpl; try reflexivity;
    destruct (mx ?= my)%positive; reflexivity.
Qed.

Lemma SFcompare_some x y :
  sf_is_nan x = false -> sf_is_nan y = false -> exists c, SFcompare x y = Some c.
Proof. destruct x, y; simpl; intros; try discriminate; eauto. Qed.

Lemma SFleb_total x y :
  sf_is_nan x = false -> sf_is_nan y = false ->
  SFleb x y = false -> SFleb y x = true.
Proof.
  intros Hx Hy. unfold SFleb. rewrite (SFcompare_opp x y).
  destruct (SFcompare_some x y Hx Hy) as [c ->]. destruct c; simpl; congruence.
Qed.

Lemma SFleb_trans x y z :
  SFleb x y = true -> SFleb y z = true -> SFleb x z = true.
Proof.
  unfold SFleb.
  destruct x as [sx|sx| |sx mx ex], y as [sy|sy| |sy my ey], z as [sz|sz| |sz mz ez];
    simpl; try discriminate; try reflexivity;
    try (destruct sx; simpl; try discriminate; try reflexivity);
    try (destruct sy; simpl; try discriminate; try reflexivity);
    try (destruct sz; simpl; try discriminate; try reflexivity).
  all: try (intros; discriminate).
  all: try (intros; reflexivity).
  all: rewrite !Pos.compare_cont_spec; simpl;
    destruct (Z.compare_spec ex ey), (Z.compare_spec ey ez), (Z.compare_spec ex ez);
    simpl; try discriminate; try reflexivity; try lia; subst.
  all: destruct (Pos.compare_spec mx my), (Pos.compare_spec my mz),
         (Pos.compare_spec mx mz);
    simpl; try discriminate; try reflexivity; try lia.
Qed.

Lemma SFcompare_refl x : sf_is_nan x = false -> SFcompare x x = Some Eq.
Proof.
  destruct x as [s|s| |s m e]; simpl; intros H; try discriminate; try reflexivity.
  - destruct s; reflexivity.
  - rewrite Pos.compare_cont_spec, Z.compare_refl, Pos.compare_refl.
    destruct s; reflexivity.
Qed.

(** [is_nan] is [NaN] of the specification. *)
Lemma is_nan_spec x : PrimFloat.is_nan x = sf_is_nan (Prim2SF x).
Proof.
  unfold PrimFloat.is_nan. rewrite FloatAxioms.eqb_spec. unfold SFeqb.
  destruct (sf_is_nan (Prim2SF x)) eqn:E.
  - destruct (Prim2SF x); try discriminate. reflexivity.
  - rewrite (SFcompare_refl _ E). reflexivity.
Qed.

Lemma leb_total x y :
  PrimFloat.is_nan x = false -> PrimFloat.is_nan y = false ->
  PrimFloat.leb x y = false -> PrimFloat.leb y x = true.
Proof.
  rewrite !is_nan_spec, !leb_spec. apply SFleb_total.
Qed.

Lemma leb_trans x y z :
  PrimFloat.leb x y = true -> PrimFloat.leb y z = true -> PrimFloat.leb x z = true.
Proof. rewrite !leb_spec. apply SFleb_trans. Qed.

Lemma leb_refl x : PrimFloat.is_nan x = false -> PrimFloat.leb x x = true.
Proof.
  rewrite is_nan_spec, leb_spec. intros H. unfold SFleb.
  rewrite (SFcompare_refl _ H). reflexivity.
Qed.

(** A power greater than 0 is a number. *)
Lemma positive_is_number d : positive d = true -> is_number d.
Proof.
  unfold positive, is_number. rewrite is_nan_spec, ltb_spec. unfold SFltb.
  destruct (Prim2SF (App.power d)); simpl; try reflexivity.
  destruct (Prim2SF 0); discriminate.
Qed.

(** The product of zero and any number is not greater than 0. *)
Lemma zero_times_not_positive rate : PrimFloat.ltb 0 (0 * rate) = false.
Proof.
  rewrite ltb_spec, mul_spec.
  change (Prim2SF 0) with (S754_zero false).
  destruct (Prim2SF rate) as [s|s| |s m e]; reflexivity.
Qed.

(** ** The sorted snapshot *)

Lemma insert_desc_perm d l : Device.insert_desc d l ≡ₚ d :: l.
Proof.
  induction l as [|x l IH]; simpl; [reflexivity|].
  destruct (PrimFloat.leb (App.power x) (App.power d)); [reflexivity|].
  rewrite IH. apply perm_swap.
Qed.

Lemma sort_desc_perm l : Device.sort_desc l ≡ₚ l.
Proof.
  induction l as [|d l IH]; simpl; [reflexivity|].
  rewrite insert_desc_perm, IH. reflexivity.
Qed.

Lemma insert_desc_sorted d l :
  is_number d -> Forall is_number l ->
  StronglySorted at_least l -> StronglySorted at_least (Device.insert_desc d l).
Proof.
  intros Hd Hl Hsorted. induction Hsorted as [|x l Hsorted IH Hx]; simpl.
  - repeat constructor.
  - apply Forall_cons in Hl as [Hnx Hl].
    destruct (PrimFloat.leb (App.power x) (App.power d)) eqn:E.
    + constructor; [constructor; assumption|].
      constructor; [exact E|].
      eapply Forall_impl; [exact Hx|]. intros b Hb. unfold at_least in *.
      apply (leb_trans _ _ _ Hb E).
    + constructor; [apply IH, Hl|].
      rewrite insert_desc_perm. constructor; [|exact Hx].
      apply leb_total; [exact Hnx | exact Hd | exact E].
Qed.

Lemma sort_desc_sorted l :
  Forall is_number l -> StronglySorted at_least (Device.sort_desc l).
Proof.
  induction l as [|d l IH]; intros Hl; simpl; [constructor|].
  apply Forall_cons in Hl as [Hd Hl].
  apply insert_desc_sorted; [exact Hd | | apply IH, Hl].
  rewrite sort_desc_perm. exact Hl.
Qed.

Lemma filter_positive_numbers l : Forall is_number (List.filter positive l).
Proof.
  apply Forall_forall. intros d Hd. apply list_elem_of_In, filter_In in Hd as [_ Hd].
  apply positive_is_number, Hd.
Qed.

Lemma sorted_app_dominates (l1 l2 : list App.PowerDevice) :
  StronglySorted at_least (l1 ++ l2) ->
  forall a b, a ∈ l1 -> b ∈ l2 -> at_least a b.
Proof.
  induction l1 as [|x l1 IH]; simpl; intros Hsorted a b Ha Hb.
  - apply elem_of_nil in Ha. contradiction.
  - apply StronglySorted_inv in Hsorted as [Hrest Hx].
    apply elem_of_cons in Ha as [->|Ha].
    + rewrite Forall_forall in Hx. apply Hx.
      apply elem_of_app. right. exact Hb.
    + apply (IH Hrest a b Ha Hb).
Qed.

(** The snapshot a run of [updateCostTracking] leaves. *)
Lemma snapshot_sorted_lemma st app clock recorded dev dev' app' events :
  Device.updateCostTracking st app clock recorded dev
      = Some (dev', app', events) ->
  StronglySorted at_least (Device.devicePowers dev') /\
  (forall d, d ∈ Device.devicePowers dev' ->
             PrimFloat.ltb 0 (App.power d) = true).
Proof.
  intros Hrun.
  destruct (updateCostTracking_inside st app clock recorded dev _ Hrun)
    as (season & rate & Hseason & Hrate).
  rewrite (updateCostTracking_result st app clock recorded dev season rate
      Hseason Hrate)
    in Hrun.
  injection Hrun as <- _ _. simpl.
  split; [apply sort_desc_sorted, filter_positive_numbers|].
  intros d. rewrite sort_desc_perm.
  rewrite list_elem_of_In, filter_In. intros [_ H]. exact H.
Qed.

(** X9.  After a run of [updateCostTracking] the device's [devicePowers]
    holds exactly the devices the app reports with a power greater than 0,
    each once per report, ordered so that every device draws at least as much
    as all the devices after it; while the app's API is not ready it is
    empty. *)
Theorem snapshot_sorted st app clock recorded dev dev' app' events :
  Device.updateCostTracking st app clock recorded dev
      = Some (dev', app', events) ->
  let snapshot := Device.devicePowers dev' in
  StronglySorted at_least snapshot /\
  snapshot ≡ₚ List.filter positive (Device.getDevicesWithPower app) /\
  (forall d, d ∈ snapshot <->
             d ∈ Device.getDevicesWithPower app /\
             PrimFloat.ltb 0 (App.power d) = true) /\
  (App.apiReady app = false -> snapshot = []).
Proof.
  intros Hrun snapshot. subst snapshot.
  destruct (updateCostTracking_inside st app clock recorded dev _ Hrun)
    as (season & rate & Hseason & Hrate).
  rewrite (updateCostTracking_result st app clock recorded dev season rate
      Hseason Hrate)
    in Hrun.
  injection Hrun as <- _ _. simpl.
  split; [apply sort_desc_sorted, filter_positive_numbers|].
  split; [apply sort_desc_perm|]. split.
  - intros d. rewrite sort_desc_perm.
    rewrite list_elem_of_In, filter_In, <- list_elem_of_In. reflexivity.
  - intros Hready. unfold Device.getDevicesWithPower. rewrite Hready. reflexivity.
Qed.

Lemma snapshot_sorted_witness :
  let app := App.mkState true
    (Some [("a", App.mkPowerEntry "A" 500); ("b", App.mkPowerEntry "B" (-3));
           ("c", App.mkPowerEntry "C" 1500)]) [] in
  let dev := Device.mkState (Some day) 0 (2026, 0, 15) 0 0 [] in
  exists dev' app' events,
    Device.updateCostTracking st_flat app (minute_clock 60) (minute_clock 60)
        dev
      = Some (dev', app', events) /\
    StronglySorted at_least (Device.devicePowers dev').
Proof.
  intros app dev.
  destruct (Device.updateCostTracking st_flat app (minute_clock 60)
      (minute_clock 60) dev)
    as [[[dev' app'] events]|] eqn:Hrun; [|vm_compute in Hrun; discriminate].
  exists dev', app', events. split; [reflexivity|].
  apply (snapshot_sorted st_flat app (minute_clock 60) (minute_clock 60) dev
      dev' app' events Hrun).
Defined.

Lemma slice_to_take {A} (limit : Z) (a : list A) :
  exists n, DeviceRest.slice_to limit a = take n a /\
            (0 <= limit -> n = Z.to_nat limit) /\
            (limit < 0 -> n = (length a - Z.to_nat (- limit))%nat).
Proof.
  unfold DeviceRest.slice_to. eexists. split; [reflexivity|].
  destruct (Z.ltb_spec limit 0); split; intros; lia.
Qed.

(** X10.  After a run of [updateCostTracking], [getTopConsumers(limit)] of
    the device returns the first [limit] devices of the snapshot (all of them
    when there are fewer; all but the last [-limit] for a negative [limit]):
    each has a power greater than 0 and draws at least as much as every device
    of the snapshot that is left out. *)
Theorem device_top_consumers st app clock recorded dev dev' app' events limit :
  Device.updateCostTracking st app clock recorded dev
      = Some (dev', app', events) ->
  let snapshot := Device.devicePowers dev' in
  let top := DeviceRest.getTopConsumers limit dev' in
  exists rest,
    snapshot = (top ++ rest)%list /\
    (0 <= limit -> length top = Nat.min (Z.to_nat limit) (length snapshot)) /\
    (limit < 0 -> length top = (length snapshot - Z.to_nat (- limit))%nat) /\
    (forall a, a ∈ top -> PrimFloat.ltb 0 (App.power a) = true) /\
    (forall a b, a ∈ top -> b ∈ rest -> at_least a b).
Proof.
  intros Hrun snapshot top. subst snapshot top.
  destruct (snapshot_sorted_lemma st app clock recorded dev dev' app' events
      Hrun)
    as (Hsorted & Hmem).
  unfold DeviceRest.getTopConsumers.
  destruct (slice_to_take limit (Device.devicePowers dev')) as (n & -> & Hpos & Hneg).
  exists (drop n (Device.devicePowers dev')).
  split; [symmetry; apply take_drop|].
  split; [intros H; rewrite length_take, (Hpos H); reflexivity|].
  split; [intros H; rewrite length_take, (Hneg H); lia|].
  split.
  - intros a Ha. apply Hmem. apply elem_of_take in Ha as (i & Ha & _).
    apply list_elem_of_lookup. exists i. exact Ha.
  - apply sorted_app_dominates. rewrite take_drop. exact Hsorted.
Qed.

Lemma device_top_consumers_witness :
  let app := App.mkState true
    (Some [("a", App.mkPowerEntry "A" 500); ("b", App.mkPowerEntry "B" (-3));
           ("c", App.mkPowerEntry "C" 1500)]) [] in
  let dev := Device.mkState (Some day) 0 (2026, 0, 15) 0 0 [] in
  exists dev' app' events,
    Device.updateCostTracking st_flat app (minute_clock 60) (minute_clock 60)
        dev
      = Some (dev', app', events) /\
    length (DeviceRest.getTopConsumers 1 dev') = 1%nat.
Proof.
  intros app dev.
  destruct (Device.updateCostTracking st_flat app (minute_clock 60)
      (minute_clock 60) dev)
    as [[[dev' app'] events]|] eqn:Hrun; [|vm_compute in Hrun; discriminate].
  exists dev', app', events. split; [reflexivity|].
  destruct (device_top_consumers st_flat app (minute_clock 60)
    (minute_clock 60) dev dev' app'
              events 1 Hrun) as (rest & _ & Hlen & _).
  rewrite Hlen by lia.
  injection Hrun as <- _ _. reflexivity.
Defined.

(** X11.  [getTopConsumers] of the app returns at most five of the tracked
    devices, whatever the sign of their power and whether or not the API is
    ready: when every power is a number, they are ordered by descending power
    and each draws at least as much as every tracked device left out. *)
Theorem app_top_consumers app :
  Forall is_number (App.getPowerDevices app) ->
  let top := AppRest.getTopConsumers app in
  exists rest,
    (top ++ rest)%list ≡ₚ App.getPowerDevices app /\
    length top = Nat.min 5 (length (App.getPowerDevices app)) /\
    StronglySorted at_least top /\
    (forall a b, a ∈ top -> b ∈ rest -> at_least a b) /\
    (App.powerDevices app = None -> top = []).
Proof.
  intros Hnumbers top. subst top. unfold AppRest.getTopConsumers.
  pose proof (sort_desc_sorted _ Hnumbers) as Hsorted.
  exists (drop 5 (Device.sort_desc (App.getPowerDevices app))).
  split; [rewrite take_drop; apply sort_desc_perm|].
  split; [rewrite length_take, (Permutation_length (sort_desc_perm _)); reflexivity|].
  split; [|split].
  - rewrite <- (take_drop 5 (Device.sort_desc (App.getPowerDevices app))) in Hsorted.
    revert Hsorted. generalize (take 5 (Device.sort_desc (App.getPowerDevices app))).
    intros l. induction l as [|x l IH]; simpl; intros Hsorted; [constructor|].
    apply StronglySorted_inv in Hsorted as [Hrest Hx].
    constructor; [apply IH, Hrest|].
    rewrite Forall_forall in Hx |- *. intros y Hy. apply Hx.
    apply elem_of_app. left. exact Hy.
  - apply sorted_app_dominates. rewrite take_drop. exact Hsorted.
  - intros Hnone. unfold App.getPowerDevices. rewrite Hnone. reflexivity.
Qed.

Lemma app_top_consumers_witness :
  let app := App.mkState false
    (Some [("a", App.mkPowerEntry "A" 500); ("b", App.mkPowerEntry "B" (-3));
           ("c", App.mkPowerEntry "C" 1500)]) [] in
  length (AppRest.getTopConsumers app) = 3%nat.
Proof.
  intros app.
  assert (Hnumbers : Forall is_number (App.getPowerDevices app))
    by (repeat constructor).
  destruct (app_top_consumers app Hnumbers) as (rest & _ & Hlen & _).
  exact Hlen.
Defined.

(** The sample [recordHistory] has just recorded is the last of the buffer. *)
Lemma recordHistory_last app now p h d :
  last (App.history (App.recordHistory app now p h d)) =
  Some (App.mkHistorySample (now_ms now) p h d).
Proof.
  rewrite recordHistory_history. unfold App.slice_last, sample_of.
  rewrite drop_app_le by (rewrite length_app; simpl; lia).
  apply last_snoc.
Qed.

Lemma no_positive_total devices :
  (forall d, d ∈ devices -> positive d = false) ->
  List.filter positive devices = [] /\ positive_power_total devices = 0%float.
Proof.
  intros Hnone.
  assert (Hfilter : List.filter positive devices = []).
  { induction devices as [|d devices IH]; simpl; [reflexivity|].
    rewrite (Hnone d) by apply list_elem_of_here.
    apply IH. intros d' Hd'. apply Hnone. apply list_elem_of_further, Hd'. }
  split; [exact Hfilter|]. unfold positive_power_total. rewrite Hfilter.
  reflexivity.
Qed.

(** X12.  When no reported device has a power greater than 0 (no device,
    readings of 0 or below, or the app's API not ready), a run of
    [updateCostTracking] leaves an empty snapshot, records a total power of 0
    in the history and triggers neither the cost-per-hour alert nor any
    high-power-device alert, whatever the rate. *)
Theorem no_consumption_no_alert st app clock recorded dev dev' app' events :
  Device.updateCostTracking st app clock recorded dev
      = Some (dev', app', events) ->
  (forall d, d ∈ Device.getDevicesWithPower app -> positive d = false) ->
  Device.devicePowers dev' = [] /\
  List.filter is_cost_threshold events = [] /\
  List.filter is_high_power events = [] /\
  App.sample_power <$> last (App.history app') = Some 0%float.
Proof.
  intros Hrun Hnone.
  destruct (updateCostTracking_inside st app clock recorded dev _ Hrun)
    as (season & rate & Hseason & Hrate).
  rewrite (updateCostTracking_result st app clock recorded dev season rate
      Hseason Hrate)
    in Hrun.
  destruct (no_positive_total _ Hnone) as [Hfilter Htotal].
  rewrite Hfilter, Htotal in Hrun.
  injection Hrun as <- <- <-.
  split; [reflexivity|].
  split; [|split; [|rewrite recordHistory_last; reflexivity]].
  all: unfold Device.checkAlerts; simpl;
    change (0 / 1000)%float with 0%float;
    rewrite zero_times_not_positive; simpl;
    destruct (PrimFloat.ltb 0 _); reflexivity.
Qed.

Lemma no_consumption_no_alert_witness :
  let app := App.mkState false
    (Some [("heater", App.mkPowerEntry "Heater" 2000)]) [] in
  let dev := Device.mkState (Some day) 0 (2026, 0, 15) 0 0 [] in
  exists dev' app' events,
    Device.updateCostTracking st_flat app (minute_clock 60) (minute_clock 60)
        dev
      = Some (dev', app', events) /\
    List.filter is_cost_threshold events = [].
Proof.
  intros app dev.
  destruct (Device.updateCostTracking st_flat app (minute_clock 60)
      (minute_clock 60) dev)
    as [[[dev' app'] events]|] eqn:Hrun; [|vm_compute in Hrun; discriminate].
  exists dev', app', events. split; [reflexivity|].
  apply (no_consumption_no_alert st_flat app (minute_clock 60)
    (minute_clock 60) dev dev' app'
           events Hrun).
  intros d Hd. apply elem_of_nil in Hd. contradiction.
Defined.

(** X13.  A run of [updateCostTracking] appends one sample to the app's
    history whose time is the reading [recordHistory] takes itself (not the
    reading of the run, which becomes [lastCostUpdate]), whose power is the
    total of the powers greater than 0 and whose daily cost is the device's
    [costToday] after the run; the history then holds at most 1440 samples
    whatever it held before, and nothing else of the app changes. *)
Theorem run_records_sample st app clock recorded dev dev' app' events :
  Device.updateCostTracking st app clock recorded dev
    = Some (dev', app', events) ->
  (exists sample,
      last (App.history app') = Some sample /\
      App.t sample = now_ms recorded /\
      App.sample_power sample =
        positive_power_total (Device.getDevicesWithPower app) /\
      App.costDay sample = Device.costToday dev' /\
      ((length (App.history app) < 1440)%nat ->
       App.history app' = (App.history app ++ [sample])%list)) /\
  (length (App.history app') <= 1440)%nat /\
  App.apiReady app' = App.apiReady app /\
  App.powerDevices app' = App.powerDevices app /\
  Device.lastCostUpdate dev' = now_ms clock.
Proof.
  intros Hrun.
  destruct (updateCostTracking_inside st app clock recorded dev _ Hrun)
    as (season & rate & Hseason & Hrate).
  rewrite (updateCostTracking_result st app clock recorded dev season rate
             Hseason Hrate) in Hrun.
  injection Hrun as <- <- _.
  split; [|split; [|repeat split]].
  - eexists. split; [apply recordHistory_last|].
    split; [reflexivity|]. split; [reflexivity|]. split; [reflexivity|].
    intros Hroom.
    rewrite recordHistory_history. apply slice_last_short.
    rewrite length_app. simpl. lia.
  - rewrite recordHistory_history. apply slice_last_length.
Qed.

Lemma run_records_sample_witness :
  let dev := Device.mkState (Some day) 0 (2026, 0, 15) 0 0 [] in
  let recorded := mkClock 3600250 2026 0 15 1 0 in
  exists dev' app' events sample,
    Device.updateCostTracking st_flat app_2000 (minute_clock 60) recorded dev
      = Some (dev', app', events) /\
    last (App.history app') = Some sample /\
    App.t sample = 3600250%float /\
    Device.lastCostUpdate dev' = 3600000%float.
Proof.
  intros dev recorded.
  destruct (Device.updateCostTracking st_flat app_2000 (minute_clock 60)
              recorded dev)
    as [[[dev' app'] events]|] eqn:Hrun; [|vm_compute in Hrun; discriminate].
  destruct (run_records_sample st_flat app_2000 (minute_clock 60) recorded dev
              dev' app' events Hrun)
    as ((sample & Hlast & Htime & _) & _ & _ & _ & Hupdate).
  exists dev', app', events, sample. split; [reflexivity|].
  split; [exact Hlast|]. split; [exact Htime|].
  rewrite Hupdate. vm_compute. reflexivity.
Defined.

Lemma filter_high_power_map rate l :
  List.filter is_high_power
    (map (fun device =>
            Device.HighPowerDevice (App.device_name device) (App.power device)
              (App.power device / 1000 * rate)%float) l) =
  map (fun device =>
         Device.HighPowerDevice (App.device_name device) (App.power device)
           (App.power device / 1000 * rate)%float) l.
Proof. induction l; simpl; [reflexivity | f_equal; assumption]. Qed.

Lemma filter_other_map (f : Device.Event -> bool) rate l :
  f (Device.HighPowerDevice "" 0 0) = false ->
  (forall n p c, f (Device.HighPowerDevice n p c) = f (Device.HighPowerDevice "" 0 0)) ->
  List.filter f
    (map (fun device =>
            Device.HighPowerDevice (App.device_name device) (App.power device)
              (App.power device / 1000 * rate)%float) l) = [].
Proof.
  intros Hf Hall. induction l; simpl; [reflexivity|].
  rewrite Hall, Hf. assumption.
Qed.

(** X14.  The events of a run of [updateCostTracking], in order: the
    cost-per-hour alert if any, then the daily-cost alert, triggered exactly
    when [costToday] after the run is greater than 0 and carrying it as both
    value and threshold, then one high-power-device alert for every device of
    the snapshot, by descending power, with its name, its power and
    [(power / 1000) * rate]: every device that draws any power gets one, no
    power limit is applied. *)
Theorem daily_and_device_alerts st app clock recorded dev season rate :
  Device.getCurrentSeason st clock = Some season ->
  JS.ToNumber (Device.getCurrentRate st (Device.getCurrentTariff season clock))
    = Some rate ->
  exists dev' app' events,
    Device.updateCostTracking st app clock recorded dev
        = Some (dev', app', events) /\
    List.filter is_daily_cost events =
      (if PrimFloat.ltb 0 (Device.costToday dev')
       then [Device.DailyCostExceeded (Device.costToday dev') (Device.costToday dev')]
       else []) /\
    List.filter is_high_power events =
      map (fun d => Device.HighPowerDevice (App.device_name d) (App.power d)
                      (App.power d / 1000 * rate)%float)
          (Device.devicePowers dev') /\
    length (List.filter is_high_power events) =
      length (List.filter positive (Device.getDevicesWithPower app)) /\
    events = (List.filter is_cost_threshold events ++
              List.filter is_daily_cost events ++
              List.filter is_high_power events)%list.
Proof.
  intros Hseason Hrate.
  rewrite (updateCostTracking_result st app clock recorded dev season rate
      Hseason Hrate).
  do 3 eexists. split; [reflexivity|].
  unfold Device.checkAlerts. cbn [Device.devicePowers Device.costToday].
  rewrite !List.filter_app, filter_high_power_map.
  rewrite (filter_other_map is_daily_cost) by reflexivity.
  rewrite (filter_other_map is_cost_threshold) by reflexivity.
  rewrite !app_nil_r.
  split; [|split; [|split]].
  - destruct (PrimFloat.ltb 0 (positive_power_total _ / 1000 * rate)%float);
      destruct (PrimFloat.ltb 0 _); reflexivity.
  - destruct (PrimFloat.ltb 0 (positive_power_total _ / 1000 * rate)%float);
      destruct (PrimFloat.ltb 0 _); reflexivity.
  - destruct (PrimFloat.ltb 0 (positive_power_total _ / 1000 * rate)%float);
      destruct (PrimFloat.ltb 0 _); simpl;
      rewrite length_map, (Permutation_length (sort_desc_perm _)); reflexivity.
  - destruct (PrimFloat.ltb 0 (positive_power_total _ / 1000 * rate)%float);
      destruct (PrimFloat.ltb 0 _); reflexivity.
Qed.

Lemma daily_and_device_alerts_witness :
  let dev := Device.mkState (Some day) 0 (2026, 0, 15) 0 0 [] in
  exists dev' app' events,
    Device.updateCostTracking st_flat app_2000 (minute_clock 60)
      (minute_clock 60) dev
      = Some (dev', app', events) /\
    List.filter is_high_power events = [Device.HighPowerDevice "Heater" 2000 0.24].
Proof.
  intros dev.
  destruct (daily_and_device_alerts st_flat app_2000 (minute_clock 60)
      (minute_clock 60) dev
              None 0.12%float eq_refl eq_refl)
    as (dev' & app' & events & Hrun & _ & Hhigh & _).
  exists dev', app', events. split; [exact Hrun|].
  rewrite Hhigh.
  rewrite (updateCostTracking_result st_flat app_2000 (minute_clock 60)
      (minute_clock 60) dev
             None 0.12%float eq_refl eq_refl) in Hrun.
  injection Hrun as <- _ _. vm_compute. reflexivity.
Defined.

(** ** The app's tariff monitor and chart data *)

Lemma app_getCurrentRate_device st now tariff :
  App.getCurrentTariff st now = Some tariff ->
  App.getCurrentRate st now = Some (Device.getCurrentRate st tariff).
Proof.
  intros Htariff. unfold App.getCurrentRate. rewrite Htariff. simpl.
  destruct tariff; reflexivity.
Qed.

(** X15.  The callback of [startTariffMonitor] triggers one tariff-changed
    event, with the tariff it held, the new one and the new rate, exactly when
    the tariff resolved at its clock reading differs from the one it holds, and
    then holds the new one; a second call at the same reading triggers
    nothing.  A device that last observed the same tariff triggers, in
    [updateTariffValues] at the same reading, the same event: a change of
    tariff reaches the trigger card twice, once from the app and once from the
    device. *)
Theorem app_tariff_monitor st now current season :
  App.getCurrentSeason st now = Some season ->
  let new := Device.getCurrentTariff season now in
  let event := Device.TariffChanged current new (Device.getCurrentRate st new) in
  (current = new -> AppRest.tariffMonitor st now current = Some (current, [])) /\
  (current <> new -> AppRest.tariffMonitor st now current = Some (new, [event])) /\
  (exists events, AppRest.tariffMonitor st now current = Some (new, events) /\
                  AppRest.tariffMonitor st now new = Some (new, [])) /\
  (forall dev, Device.lastTariff dev = Some current ->
     exists dev' events,
       Device.updateTariffValues st now dev = Some (dev', events) /\
       AppRest.tariffMonitor st now current = Some (new, events)).
Proof.
  intros Hseason new event. subst event.
  assert (Htariff : App.getCurrentTariff st now = Some new)
    by (apply app_getCurrentTariff_device, Hseason).
  assert (Hrate := app_getCurrentRate_device st now new Htariff).
  assert (Hsame : AppRest.tariffMonitor st now new = Some (new, [])).
  { unfold AppRest.tariffMonitor. rewrite Htariff. simpl.
    rewrite (proj2 (Tariff_eqb_eq new new) eq_refl). reflexivity. }
  assert (Hdiff : current <> new ->
    AppRest.tariffMonitor st now current =
    Some (new, [Device.TariffChanged current new (Device.getCurrentRate st new)])).
  { intros Hne. unfold AppRest.tariffMonitor. rewrite Htariff. simpl.
    destruct (Tariff_eqb current new) eqn:E.
    - apply Tariff_eqb_eq in E. contradiction.
    - simpl. rewrite Hrate. reflexivity. }
  split; [intros ->; exact Hsame|]. split; [exact Hdiff|]. split.
  - destruct (Tariff_eqb current new) eqn:E.
    + apply Tariff_eqb_eq in E. subst current. eauto.
    + eexists. split; [apply Hdiff|exact Hsame].
      intros ->. rewrite (proj2 (Tariff_eqb_eq new new) eq_refl) in E. discriminate.
  - intros dev Hlast.
    rewrite getCurrentSeason_app_device in Hseason.
    unfold Device.updateTariffValues. rewrite Hseason. simpl. fold new.
    unfold Device.trackTariffChanges. rewrite Hlast.
    destruct (Tariff_eqb current new) eqn:E; simpl.
    + apply Tariff_eqb_eq in E. subst current.
      do 2 eexists. split; [reflexivity | exact Hsame].
    + do 2 eexists. split; [reflexivity|]. apply Hdiff.
      intros ->. rewrite (proj2 (Tariff_eqb_eq new new) eq_refl) in E. discriminate.
Qed.

Lemma app_tariff_monitor_witness :
  let now := mkClock 0 2026 0 15 6 0 in
  AppRest.tariffMonitor st_default now night =
  Some (day, [Device.TariffChanged night day (JS.VNum 0.12)]).
Proof.
  intros now.
  assert (Hseason : App.getCurrentSeason st_default now =
    Some (Some (mkSeason "Winter" 11 1 3 31 (Some "06:00") (Some "22:00"))))
    by reflexivity.
  destruct (app_tariff_monitor st_default now night _ Hseason) as (_ & Hdiff & _).
  apply Hdiff. vm_compute. discriminate.
Defined.

Lemma sum_powers_map (l : list App.PowerDevice) : forall start,
  fold_left (fun sum d => (sum + App.power d)%float) l start =
  fold_left PrimFloat.add (map App.power l) start.
Proof. induction l as [|d l IH]; intros start; simpl; [reflexivity | apply IH]. Qed.

Lemma filter_all_positive l :
  Forall (fun d => positive d = true) l -> List.filter positive l = l.
Proof.
  induction 1 as [|d l Hd _ IH]; simpl; [reflexivity|].
  rewrite Hd, IH. reflexivity.
Qed.

(** X16.  [getChartData] returns the history as the app holds it and, as
    current power, the sum of the powers of all tracked devices, whether or
    not the API is ready and whatever their sign (0 while no device table
    exists).  When the API is ready and every tracked power is greater than 0,
    that sum and the cost per hour are the ones a run of [updateCostTracking]
    at the same clock reading records in the history. *)
Theorem chart_data st app now season rate :
  App.getCurrentSeason st now = Some season ->
  JS.ToNumber (Device.getCurrentRate st (Device.getCurrentTariff season now))
    = Some rate ->
  exists current,
    AppRest.getChartData st app now = Some (current, App.history app) /\
    AppRest.chart_tariff current = Device.getCurrentTariff season now /\
    AppRest.chart_totalPower current =
      fold_left PrimFloat.add (map App.power (App.getPowerDevices app)) 0%float /\
    AppRest.chart_costPerHour current =
      (AppRest.chart_totalPower current / 1000 * rate)%float /\
    (App.powerDevices app = None -> AppRest.chart_totalPower current = 0%float) /\
    (App.apiReady app = true ->
     Forall (fun d => positive d = true) (App.getPowerDevices app) ->
     forall recorded dev, exists dev' app' events sample,
       Device.updateCostTracking st app now recorded dev
         = Some (dev', app', events) /\
       last (App.history app') = Some sample /\
       App.sample_power sample = AppRest.chart_totalPower current /\
       App.costH sample = AppRest.chart_costPerHour current).
Proof.
  intros Hseason Hrate.
  assert (Htariff := app_getCurrentTariff_device st now season Hseason).
  assert (Hrate' := app_getCurrentRate_device st now _ Htariff).
  unfold AppRest.getChartData. rewrite Htariff, Hrate'. simpl. rewrite Hrate. simpl.
  eexists. split; [reflexivity|]. simpl.
  split; [reflexivity|]. split; [apply sum_powers_map|].
  split; [reflexivity|]. split.
  - intros Hnone. unfold App.getPowerDevices. rewrite Hnone. reflexivity.
  - intros Hready Hpositive recorded dev.
    rewrite getCurrentSeason_app_device in Hseason.
    rewrite (updateCostTracking_result st app now recorded dev season rate
               Hseason Hrate).
    do 4 eexists. split; [reflexivity|]. split; [apply recordHistory_last|].
    assert (Htotal :
      positive_power_total (Device.getDevicesWithPower app) =
      fold_left (fun sum d => (sum + App.power d)%float)
                (App.getPowerDevices app) 0%float).
    { unfold positive_power_total, Device.getDevicesWithPower. rewrite Hready.
      rewrite (filter_all_positive _ Hpositive). symmetry. apply sum_powers_map. }
    simpl. rewrite Htotal. split; reflexivity.
Qed.

Lemma chart_data_witness :
  let now := minute_clock 60 in
  exists current,
    AppRest.getChartData st_flat app_2000 now = Some (current, []) /\
    AppRest.chart_totalPower current = 2000%float.
Proof.
  intros now.
  destruct (chart_data st_flat app_2000 now None 0.12%float eq_refl eq_refl)
    as (current & Hchart & _ & Htotal & _).
  exists current. split; [exact Hchart|]. rewrite Htotal. reflexivity.
Defined.

(** ** Initialization and runs of interval ticks *)

(** X17.  [onInit] of the device, for settings inside the model, leaves a
    device that has observed the tariff of its clock reading, with a change
    counter of 0, a daily cost of 0, the day and time of the reading recorded
    and no consumers, and triggers no event: a first observation never counts
    as a change. *)
Theorem device_onInit st now season :
  Device.getCurrentSeason st now = Some season ->
  Device.onInit st now =
  Some (Device.mkState (Some (Device.getCurrentTariff season now)) 0
          (toDateString now) 0 (now_ms now) [], []) /\
  (forall dev events limit,
      Device.onInit st now = Some (dev, events) ->
      DeviceRest.getTopConsumers limit dev = []).
Proof.
  intros Hseason.
  assert (Hinit : Device.onInit st now =
    Some (Device.mkState (Some (Device.getCurrentTariff season now)) 0
            (toDateString now) 0 (now_ms now) [], [])).
  { unfold Device.onInit, Device.updateTariffValues. rewrite Hseason. simpl.
    unfold Device.trackTariffChanges, Device.init_state. simpl.
    rewrite !Z.eqb_refl. reflexivity. }
  split; [exact Hinit|].
  intros dev events limit Hrun. rewrite Hinit in Hrun. injection Hrun as <- _.
  unfold DeviceRest.getTopConsumers, DeviceRest.slice_to. simpl.
  apply take_nil.
Qed.

Lemma device_onInit_witness :
  let now := mkClock 0 2026 0 15 8 0 in
  Device.onInit st_default now =
  Some (Device.mkState (Some day) 0 (2026, 0, 15) 0 0 [], []).
Proof.
  intros now.
  apply (device_onInit st_default now
           (Some (mkSeason "Winter" 11 1 3 31 (Some "06:00") (Some "22:00")))).
  reflexivity.
Defined.

Lemma slice_last_length_eq {A} (n : nat) (a : list A) :
  length (App.slice_last n a) = Nat.min (length a) n.
Proof. unfold App.slice_last. rewrite length_drop. lia. Qed.

Lemma interval_tick_step st app clock1 clock2 clock3 dev dev' app' events :
  Device.interval_tick st app clock1 clock2 clock3 dev
      = Some (dev', app', events) ->
  (0 <= Device.tariffChangesToday dev ->
   0 <= Device.tariffChangesToday dev' <= Device.tariffChangesToday dev + 1) /\
  Device.lastTariff dev' <> None /\
  Device.lastResetDate dev' = toDateString clock2 /\
  Device.lastCostUpdate dev' = now_ms clock2 /\
  length (App.history app') = Nat.min (length (App.history app) + 1) 1440.
Proof.
  unfold Device.interval_tick. intros Htick.
  destruct (Device.updateTariffValues st clock1 dev) as [[dev1 events1]|] eqn:Hfirst;
    [|discriminate].
  simpl in Htick.
  destruct (Device.updateCostTracking st app clock2 clock3 dev1)
    as [[[dev2 app2] events2]|] eqn:Hrun; [|discriminate].
  simpl in Htick. injection Htick as <- <- _.
  unfold Device.updateTariffValues in Hfirst.
  destruct (Device.getCurrentSeason st clock1) as [season1|]; [|discriminate].
  simpl in Hfirst. injection Hfirst as Hfirst.
  assert (Hdev1 : dev1 = (Device.trackTariffChanges st
            (Device.getCurrentTariff season1 clock1) clock1 dev).1)
    by (rewrite Hfirst; reflexivity).
  destruct (updateCostTracking_inside st app clock2 clock3 dev1 _ Hrun)
    as (season & rate & Hseason & Hrate).
  rewrite (updateCostTracking_result st app clock2 clock3 dev1 season rate
      Hseason Hrate)
    in Hrun.
  injection Hrun as <- <- _.
  cbn [Device.tariffChangesToday Device.lastTariff Device.lastResetDate
       Device.lastCostUpdate Device.costToday].
  rewrite recordHistory_history, slice_last_length_eq, length_app.
  cbn [length].
  split; [|split; [|repeat split]].
  - rewrite Hdev1. unfold Device.trackTariffChanges.
    destruct (Device.lastTariff dev) as [previous|];
      [destruct (Tariff_eqb previous _)|];
      cbn [negb Device.tariffChangesToday fst];
      intros; destruct (negb (DateKey_eqb _ _)); lia.
  - rewrite Hdev1. unfold Device.trackTariffChanges.
    destruct (Device.lastTariff dev) as [previous|];
      [destruct (Tariff_eqb previous _)|]; discriminate.
Qed.

(** X18.  Along any sequence of interval ticks the model covers, started
    from a change counter that is not negative (as [onInit] leaves it): the
    counter stays between 0 and its start value plus the number of ticks, the
    history grows by one sample a tick until it holds 1440 and then stays at
    1440, and after the first tick the device has an observed tariff and has
    recorded the day and the time of the second clock reading of the last
    tick. *)
Theorem tick_run_invariants ticks : forall history dev dev' history',
  run_ticks ticks history dev = Some (dev', history') ->
  0 <= Device.tariffChangesToday dev ->
  0 <= Device.tariffChangesToday dev' <=
    Device.tariffChangesToday dev + Z.of_nat (length ticks) /\
  ((length history <= 1440)%nat ->
   length history' = Nat.min (length history + length ticks) 1440) /\
  (forall tick, last ticks = Some tick ->
     Device.lastTariff dev' <> None /\
     Device.lastResetDate dev' = toDateString (tick_clock2 tick) /\
     Device.lastCostUpdate dev' = now_ms (tick_clock2 tick)).
Proof.
  induction ticks as [|tick rest IH]; intros history dev dev' history' Hrun Hcount.
  - simpl in Hrun. injection Hrun as <- <-. simpl.
    split; [lia|]. split; [lia|]. intros tick Htick. discriminate.
  - simpl in Hrun.
    destruct (Device.interval_tick _ _ _ _ _ dev)
      as [[[dev1 app1] events1]|] eqn:Htick; [|discriminate].
    simpl in Hrun.
    destruct (interval_tick_step _ _ _ _ _ _ _ _ _ Htick)
      as (Hstep & Hlast & Hdate & Htime & Hlen).
    simpl in Hlen.
    destruct (IH _ _ _ _ Hrun ltac:(lia)) as (Hc & Hl & Hend).
    split; [simpl length; lia|]. split; [simpl length; lia|].
    intros tick' Htick'.
    destruct rest as [|tick2 rest'].
    + simpl in Htick'. injection Htick' as <-.
      simpl in Hrun. injection Hrun as <- _. auto.
    + apply Hend. exact Htick'.
Qed.

Lemma tick_run_invariants_witness :
  let tick1 := mkTick st_default true
    (Some [("heater", App.mkPowerEntry "Heater" 2000)])
    (mkClock 60000 2026 0 15 5 59) (mkClock 60000 2026 0 15 5 59)
    (mkClock 60000 2026 0 15 5 59) in
  let tick2 := mkTick st_default true
    (Some [("heater", App.mkPowerEntry "Heater" 2000)])
    (mkClock 120000 2026 0 15 6 0) (mkClock 120000 2026 0 15 6 0)
    (mkClock 120000 2026 0 15 6 0) in
  let dev := Device.mkState (Some night) 0 (2026, 0, 15) 0 0 [] in
  exists dev' history',
    run_ticks [tick1; tick2] [] dev = Some (dev', history') /\
    0 <= Device.tariffChangesToday dev' <= 2 /\
    length history' = 2%nat.
Proof.
  intros tick1 tick2 dev.
  destruct (run_ticks [tick1; tick2] [] dev) as [[dev' history']|] eqn:Hrun;
    [|vm_compute in Hrun; discriminate].
  exists dev', history'. split; [reflexivity|].
  destruct (tick_run_invariants [tick1; tick2] [] dev dev' history' Hrun)
    as (Hcount & Hlen & _); [simpl; lia|].
  split; [exact Hcount|]. apply Hlen. simpl. lia.
Defined.

(** ** What is never returned *)

Lemma or_truthy v d : JS.truthy d = true -> JS.truthy (JS.or v d) = true.
Proof.
  intros Hd. unfold JS.or. destruct (JS.truthy v) eqn:E; [exact E | exact Hd].
Qed.

(** X19.  The rate resolvers of both files and every field of [getSettings]
    never give a falsy value, whatever the store holds: no [null], no empty
    string, no [false], and, when the rate is a number, neither 0 nor
    [NaN]. *)
Theorem never_falsy (st : Settings) :
  (forall tariff, JS.truthy (Device.getCurrentRate st tariff) = true) /\
  (forall tariff rate,
      Device.getCurrentRate st tariff = JS.VNum rate ->
      PrimFloat.is_zero rate = false /\ PrimFloat.is_nan rate = false) /\
  (forall now rate, App.getCurrentRate st now = Some rate -> JS.truthy rate = true) /\
  (forall key, JS.truthy (view_get (Api.getSettings st) key) = true).
Proof.
  assert (Hrate : forall tariff, JS.truthy (Device.getCurrentRate st tariff) = true).
  { intros [|]; apply or_truthy; reflexivity. }
  split; [exact Hrate|]. split; [|split].
  - intros tariff rate Heq. specialize (Hrate tariff). rewrite Heq in Hrate.
    simpl in Hrate. unfold JS.truthy_num in Hrate.
    apply negb_true_iff, orb_false_iff in Hrate. exact Hrate.
  - intros now rate Happ. unfold App.getCurrentRate in Happ.
    destruct (App.getCurrentTariff st now) as [[|]|]; simpl in Happ;
      try discriminate; injection Happ as <-; apply or_truthy; reflexivity.
  - intros key. unfold view_get, Api.getSettings.
    repeat destruct (decide _); simpl; apply or_truthy; reflexivity.
Qed.

(** ** Hours remaining *)

Lemma hours_in_day k :
  0 < k < 1440 ->
  let hours := (DeviceRest.number_of_Z k / 60)%float in
  PrimFloat.ltb 0 hours = true /\ PrimFloat.ltb hours 24 = true.
Proof.
  intros Hk hours. subst hours. apply andb_prop.
  revert k Hk.
  assert (H : forall k, 0 <= k < Z.of_nat 1440 ->
    (fun k => (k =? 0) ||
              (PrimFloat.ltb 0 (DeviceRest.number_of_Z k / 60) &&
               PrimFloat.ltb (DeviceRest.number_of_Z k / 60) 24)) k = true).
  { apply (below_n 1440). vm_compute. reflexivity. }
  intros k Hk. specialize (H k ltac:(lia)). simpl in H.
  apply orb_prop in H as [H|H]; [apply Z.eqb_eq in H; lia | exact H].
Qed.

Lemma below_n2 (n : nat) (P : Z -> Z -> bool) :
  all_pairs n P = true ->
  forall a b, 0 <= a < Z.of_nat n -> 0 <= b < Z.of_nat n -> P a b = true.
Proof.
  unfold all_pairs. cbv zeta. intros H a b Ha Hb. rewrite forallb_forall in H.
  specialize (H a (range_complete n a Ha)). rewrite forallb_forall in H.
  apply H, range_complete, Hb.
Qed.

Lemma hours_sum_in_day a b :
  0 < a -> 0 < b -> a + b < 1440 ->
  let hours := (DeviceRest.number_of_Z a / 60 + DeviceRest.number_of_Z b / 60)%float in
  PrimFloat.ltb 0 hours = true /\ PrimFloat.ltb hours 24 = true.
Proof.
  intros Ha Hb Hab hours. subst hours. apply andb_prop.
  assert (H : sum_in_day a b = true).
  { apply (below_n2 1440 sum_in_day); [vm_compute; reflexivity | lia | lia]. }
  unfold sum_in_day in H.
  apply orb_prop in H as [H|H]; [|exact H].
  apply orb_prop in H as [H|H]; [|apply Z.leb_le in H; lia].
  apply orb_prop in H as [H|H]; apply Z.eqb_eq in H; lia.
Qed.

Lemma boundary_minutes season s e :
  boundary (6, 0) (dayStart season) s ->
  boundary (22, 0) (dayEnd season) e ->
  hour_minute (JS.str_or (dayStart season) "06:00") = Some s /\
  hour_minute (JS.str_or (dayEnd season) "22:00") = Some e /\
  0 <= minute_of s < 1440 /\ 0 <= minute_of e < 1440.
Proof.
  intros Hs He.
  change "06:00" with (hhmm 6 0). change "22:00" with (hhmm 22 0).
  apply boundary_str_or in Hs as (-> & Hsh & Hsm); [|lia..].
  apply boundary_str_or in He as (-> & Heh & Hem); [|lia..].
  rewrite !hour_minute_hhmm by assumption.
  destruct s, e; unfold minute_of; simpl in *. repeat split; lia.
Qed.

(** X20.  For a season whose [dayStart] is before its [dayEnd], at every
    minute of the day, [getPeakHoursRemaining] is at least 0 and less than 24;
    it is the whole day window before [dayStart], 0 from [dayEnd] on, and
    while the tariff is [day] it is the value of [getMinutesUntilChange]
    divided by 60 and greater than 0. *)
Theorem peak_hours_remaining season now s e :
  boundary (6, 0) (dayStart season) s ->
  boundary (22, 0) (dayEnd season) e ->
  clock_ok now ->
  minute_of s < minute_of e ->
  exists hours,
    DeviceRest.getPeakHoursRemaining (Some season) now = Some hours /\
    PrimFloat.leb 0 hours = true /\ PrimFloat.ltb hours 24 = true /\
    (minute_of_day now < minute_of s ->
     hours = (DeviceRest.number_of_Z (minute_of e - minute_of s) / 60)%float) /\
    (minute_of e <= minute_of_day now -> hours = 0%float) /\
    (Device.getCurrentTariff (Some season) now = day ->
     PrimFloat.ltb 0 hours = true /\
     exists v, Device.getMinutesUntilChange (Some season) day now = Some v /\
               hours = (DeviceRest.number_of_Z v / 60)%float).
Proof.
  intros Hs He Hnow Hlt.
  destruct (boundary_minutes season s e Hs He) as (Hps & Hpe & Hs' & He').
  assert (Hn' : 0 <= minute_of_day now < 1440)
    by (destruct Hnow; unfold minute_of_day; lia).
  pose proof (getCurrentTariff_minutes season now s e Hs He Hnow) as Htariff.
  pose proof (getMinutesUntilChange_minutes season day now s e Hs He) as Hminutes.
  unfold DeviceRest.getPeakHoursRemaining. rewrite Hps, Hpe.
  destruct s as [sh sm], e as [eh em]. simpl.
  unfold minute_of, minute_of_day in *. simpl in *.
  destruct (Z.ltb_spec (getHours now * 60 + getMinutes now) (sh * 60 + sm)).
  - eexists. split; [reflexivity|].
    destruct (hours_in_day (eh * 60 + em - (sh * 60 + sm)) ltac:(lia)) as [Hpos Hday].
    split; [|split; [exact Hday|]].
    { rewrite leb_spec. rewrite ltb_spec in Hpos. unfold SFleb, SFltb in *.
      destruct (SFcompare _ _) as [[]|]; congruence. }
    split; [reflexivity|]. split; [lia|].
    intros Hd. rewrite Hd in Htariff.
    destruct (Z.leb_spec (sh * 60 + sm) (getHours now * 60 + getMinutes now));
      [lia | discriminate].
  - destruct (Z.ltb_spec (getHours now * 60 + getMinutes now) (eh * 60 + em)).
    + eexists. split; [reflexivity|].
      destruct (hours_in_day (eh * 60 + em - (getHours now * 60 + getMinutes now))
                  ltac:(lia)) as [Hpos Hday].
      split; [|split; [exact Hday|]].
      { rewrite leb_spec. rewrite ltb_spec in Hpos. unfold SFleb, SFltb in *.
        destruct (SFcompare _ _) as [[]|]; congruence. }
      split; [lia|]. split; [lia|].
      intros _. split; [exact Hpos|].
      eexists. split; [exact Hminutes | reflexivity].
    + eexists. split; [reflexivity|].
      split; [reflexivity|]. split; [reflexivity|].
      split; [lia|]. split; [reflexivity|].
      intros Hd. rewrite Hd in Htariff.
      destruct (Z.leb_spec (sh * 60 + sm) (getHours now * 60 + getMinutes now)),
               (Z.ltb_spec (getHours now * 60 + getMinutes now) (eh * 60 + em));
        simpl in Htariff; first [lia | discriminate].
Qed.

Lemma peak_hours_remaining_witness :
  let winter := mkSeason "Winter" 11 1 3 31 (Some "06:00") (Some "22:00") in
  let now := mkClock 0 2026 0 15 21 0 in
  exists hours,
    DeviceRest.getPeakHoursRemaining (Some winter) now = Some hours /\
    PrimFloat.leb 0 hours = true /\ PrimFloat.ltb hours 24 = true.
Proof.
  intros winter now.
  assert (Hs : boundary (6, 0) (dayStart winter) (6, 0))
    by (apply (boundary_given (6, 0) 6 0); lia).
  assert (He : boundary (22, 0) (dayEnd winter) (22, 0))
    by (apply (boundary_given (22, 0) 22 0); lia).
  assert (Hnow : clock_ok now) by (unfold clock_ok; simpl; lia).
  assert (Hlt : minute_of (6, 0) < minute_of (22, 0)) by (unfold minute_of; simpl; lia).
  destruct (peak_hours_remaining winter now _ _ Hs He Hnow Hlt)
    as (hours & Hrun & Hlow & Hhigh & _).
  exists hours. auto.
Defined.

(** X21.  For a season whose [dayStart] is before its [dayEnd], at every
    minute of the day, [getOffpeakHoursRemaining] is greater than 0 and at
    less than 24: between [dayStart] and [dayEnd] it is the evening block from
    [dayEnd] to midnight, and from [dayEnd] on it is the time left until
    midnight. *)
Theorem offpeak_hours_remaining season now s e :
  boundary (6, 0) (dayStart season) s ->
  boundary (22, 0) (dayEnd season) e ->
  clock_ok now ->
  minute_of s < minute_of e ->
  exists hours,
    DeviceRest.getOffpeakHoursRemaining (Some season) now = Some hours /\
    PrimFloat.ltb 0 hours = true /\ PrimFloat.ltb hours 24 = true /\
    (minute_of s <= minute_of_day now < minute_of e ->
     hours = (DeviceRest.number_of_Z (1440 - minute_of e) / 60)%float) /\
    (minute_of e <= minute_of_day now ->
     hours = (DeviceRest.number_of_Z (1440 - minute_of_day now) / 60)%float).
Proof.
  intros Hs He Hnow Hlt.
  destruct (boundary_minutes season s e Hs He) as (Hps & Hpe & Hs' & He').
  assert (Hn' : 0 <= minute_of_day now < 1440)
    by (destruct Hnow; unfold minute_of_day; lia).
  unfold DeviceRest.getOffpeakHoursRemaining. rewrite Hps, Hpe.
  destruct s as [sh sm], e as [eh em]. simpl.
  unfold minute_of, minute_of_day in *. simpl in *.
  change (24 * 60) with 1440.
  destruct (Z.ltb_spec (getHours now * 60 + getMinutes now) (sh * 60 + sm)).
  - eexists. split; [reflexivity|].
    destruct (hours_sum_in_day (sh * 60 + sm - (getHours now * 60 + getMinutes now))
                (1440 - (eh * 60 + em)) ltac:(lia) ltac:(lia) ltac:(lia))
      as [Hpos Hday].
    split; [exact Hpos|]. split; [exact Hday|]. split; intros; lia.
  - destruct (Z.ltb_spec (getHours now * 60 + getMinutes now) (eh * 60 + em)).
    + eexists. split; [reflexivity|].
      destruct (hours_in_day (1440 - (eh * 60 + em)) ltac:(lia)) as [Hpos Hday].
      split; [exact Hpos|]. split; [exact Hday|].
      split; [reflexivity | intros; lia].
    + eexists. split; [reflexivity|].
      destruct (hours_in_day (1440 - (getHours now * 60 + getMinutes now))
                  ltac:(lia)) as [Hpos Hday].
      split; [exact Hpos|]. split; [exact Hday|].
      split; [intros; lia | reflexivity].
Qed.

Lemma offpeak_hours_remaining_witness :
  let winter := mkSeason "Winter" 11 1 3 31 (Some "06:00") (Some "22:00") in
  let now := mkClock 0 2026 0 15 21 0 in
  exists hours,
    DeviceRest.getOffpeakHoursRemaining (Some winter) now = Some hours /\
    PrimFloat.ltb 0 hours = true /\ PrimFloat.ltb hours 24 = true.
Proof.
  intros winter now.
  assert (Hs : boundary (6, 0) (dayStart winter) (6, 0))
    by (apply (boundary_given (6, 0) 6 0); lia).
  assert (He : boundary (22, 0) (dayEnd winter) (22, 0))
    by (apply (boundary_given (22, 0) 22 0); lia).
  assert (Hnow : clock_ok now) by (unfold clock_ok; simpl; lia).
  assert (Hlt : minute_of (6, 0) < minute_of (22, 0)) by (unfold minute_of; simpl; lia).
  destruct (offpeak_hours_remaining winter now _ _ Hs He Hnow Hlt)
    as (hours & Hrun & Hlow & Hhigh & _).
  exists hours. auto.
Defined.

(** ** The table of power devices *)

Lemma value_or_zero_number value :
  PrimFloat.is_nan (AppRest.value_or_zero value) = false.
Proof.
  destruct value as [x|]; simpl; [|reflexivity].
  unfold JS.truthy_num. destruct (PrimFloat.is_zero x); simpl; [reflexivity|].
  destruct (PrimFloat.is_nan x) eqn:E; simpl; [reflexivity | exact E].
Qed.

Lemma value_or_zero_stored value :
  stored_for value (AppRest.value_or_zero value).
Proof.
  destruct value as [x|]; simpl; [|reflexivity].
  unfold JS.truthy_num, PrimFloat.is_zero. change PrimFloat.zero with 0%float.
  destruct (PrimFloat.is_nan x), (PrimFloat.eqb x 0); reflexivity.
Qed.

Lemma table_get_None deviceId table :
  AppRest.table_get deviceId table = None <-> deviceId ∉ table.*1.
Proof.
  induction table as [|[k old] rest IH]; simpl.
  - split; [intros _ H; apply elem_of_nil in H; exact H | reflexivity].
  - rewrite not_elem_of_cons.
    destruct (String.eqb_spec k deviceId) as [->|Hne].
    + split; [discriminate | intros [H _]; contradiction].
    + rewrite IH. split; [intros H; split; [congruence | exact H] | intros [_ H]; exact H].
Qed.

Lemma table_get_replace deviceId entry table key :
  AppRest.table_get key (AppRest.table_replace deviceId entry table) =
  if String.eqb deviceId key
  then (fun _ => entry) <$> AppRest.table_get deviceId table
  else AppRest.table_get key table.
Proof.
  induction table as [|[k old] rest IH]; simpl.
  - destruct (String.eqb deviceId key); reflexivity.
  - destruct (String.eqb_spec k deviceId) as [->|Hne]; simpl.
    + destruct (String.eqb deviceId key); reflexivity.
    + rewrite IH. destruct (String.eqb_spec k key) as [->|Hk]; [|reflexivity].
      destruct (String.eqb_spec deviceId key) as [->|]; [contradiction|reflexivity].
Qed.

Lemma table_get_add deviceId entry table key :
  AppRest.table_get deviceId table = None ->
  AppRest.table_get key (AppRest.table_add deviceId entry table) =
  if String.eqb deviceId key then Some entry else AppRest.table_get key table.
Proof.
  induction table as [|[k old] rest IH]; simpl; intros Hnone.
  - reflexivity.
  - destruct (String.eqb_spec k deviceId) as [->|Hne]; [discriminate|].
    destruct (AppRest.listed_before k deviceId); simpl.
    + rewrite (IH Hnone). destruct (String.eqb_spec k key) as [->|Hk]; [|reflexivity].
      destruct (String.eqb_spec deviceId key) as [->|]; [contradiction|reflexivity].
    + destruct (String.eqb_spec deviceId key) as [->|Hd]; [reflexivity|].
      reflexivity.
Qed.

Lemma table_get_set deviceId entry table key :
  AppRest.table_get key (AppRest.table_set deviceId entry table) =
  if String.eqb deviceId "__proto__" then AppRest.table_get key table
  else if String.eqb deviceId key then Some entry
  else AppRest.table_get key table.
Proof.
  unfold AppRest.table_set.
  destruct (String.eqb deviceId "__proto__"); [reflexivity|].
  destruct (AppRest.table_get deviceId table) as [old|] eqn:Hget.
  - rewrite table_get_replace, Hget. reflexivity.
  - apply table_get_add, Hget.
Qed.

Lemma table_replace_keys deviceId entry table :
  (AppRest.table_replace deviceId entry table).*1 = table.*1.
Proof.
  induction table as [|[k old] rest IH]; [reflexivity|].
  cbn [AppRest.table_replace].
  destruct (String.eqb k deviceId); rewrite !fmap_cons; cbn [fst];
    [reflexivity | rewrite IH; reflexivity].
Qed.

(** Where [table_add] puts a new key: after the keys that stay before it
    and before the first key that does not. *)
Lemma table_add_place deviceId entry table :
  exists before after,
    table = (before ++ after)%list /\
    AppRest.table_add deviceId entry table =
      (before ++ (deviceId, entry) :: after)%list /\
    Forall (fun k => AppRest.listed_before k deviceId = true) before.*1 /\
    (forall k, head after.*1 = Some k ->
               AppRest.listed_before k deviceId = false).
Proof.
  induction table as [|[k old] rest IH]; simpl.
  - exists [], []. repeat split; [constructor | discriminate].
  - destruct (AppRest.listed_before k deviceId) eqn:E.
    + destruct IH as (before & after & -> & -> & Hbefore & Hafter).
      exists ((k, old) :: before), after.
      repeat split; [constructor; assumption | exact Hafter].
    + exists [], ((k, old) :: rest).
      repeat split; [constructor|].
      simpl. intros k' Hk'. injection Hk' as <-. exact E.
Qed.

Lemma table_add_keys deviceId entry table :
  (AppRest.table_add deviceId entry table).*1 ≡ₚ deviceId :: table.*1.
Proof.
  induction table as [|[k old] rest IH]; [reflexivity|].
  cbn [AppRest.table_add].
  destruct (AppRest.listed_before k deviceId); rewrite !fmap_cons; cbn [fst];
    [|reflexivity].
  rewrite IH. apply Permutation_swap.
Qed.

Lemma table_set_keys_tracked deviceId entry table :
  deviceId ∈ table.*1 ->
  (AppRest.table_set deviceId entry table).*1 = table.*1.
Proof.
  intros Hin. unfold AppRest.table_set.
  destruct (String.eqb deviceId "__proto__"); [reflexivity|].
  destruct (AppRest.table_get deviceId table) eqn:Hget.
  - apply table_replace_keys.
  - apply table_get_None in Hget. contradiction.
Qed.

Lemma table_set_proto entry table :
  AppRest.table_set "__proto__" entry table = table.
Proof. reflexivity. Qed.

Lemma table_set_new deviceId entry table :
  deviceId <> "__proto__" -> deviceId ∉ table.*1 ->
  AppRest.table_set deviceId entry table = AppRest.table_add deviceId entry table.
Proof.
  intros Hproto Hout. unfold AppRest.table_set.
  rewrite (proj2 (String.eqb_neq _ _) Hproto).
  rewrite (proj2 (table_get_None deviceId table) Hout). reflexivity.
Qed.

Lemma table_set_NoDup deviceId entry table :
  NoDup table.*1 -> NoDup (AppRest.table_set deviceId entry table).*1.
Proof.
  intros Hnodup.
  destruct (decide (deviceId = "__proto__")) as [->|Hproto]; [exact Hnodup|].
  destruct (decide (deviceId ∈ table.*1)) as [Hin|Hout].
  - rewrite table_set_keys_tracked by exact Hin. exact Hnodup.
  - rewrite table_set_new by assumption. rewrite table_add_keys.
    apply NoDup_cons. split; assumption.
Qed.

Lemma listed_before_le k deviceId :
  AppRest.listed_before k deviceId = true -> key_le k deviceId.
Proof.
  unfold AppRest.listed_before, key_le.
  destruct (AppRest.array_index deviceId) as [n|],
           (AppRest.array_index k) as [m|]; try easy.
  intros H. apply Z.ltb_lt in H. lia.
Qed.

Lemma not_listed_before_le k deviceId :
  AppRest.listed_before k deviceId = false ->
  key_le deviceId k /\ (forall x, key_le k x -> key_le deviceId x).
Proof.
  unfold AppRest.listed_before, key_le.
  destruct (AppRest.array_index deviceId) as [n|]; [|discriminate].
  destruct (AppRest.array_index k) as [m|].
  - intros H. apply Z.ltb_ge in H. split; [exact H|].
    intros x. destruct (AppRest.array_index x); [lia | trivial].
  - intros _. split; [trivial|].
    intros x. destruct (AppRest.array_index x); [contradiction | trivial].
Qed.

Lemma table_add_ordered deviceId entry table :
  key_ordered table.*1 ->
  key_ordered (AppRest.table_add deviceId entry table).*1.
Proof.
  unfold key_ordered.
  induction table as [|[k old] rest IH]; intros Hsorted.
  - simpl. repeat constructor.
  - rewrite fmap_cons in Hsorted. cbn [fst] in Hsorted.
    apply StronglySorted_inv in Hsorted as [Hrest Hk].
    cbn [AppRest.table_add].
    destruct (AppRest.listed_before k deviceId) eqn:E;
      rewrite !fmap_cons; cbn [fst].
    + constructor; [apply IH, Hrest|].
      rewrite Forall_forall. intros x Hx.
      rewrite table_add_keys in Hx. apply elem_of_cons in Hx as [->|Hx].
      * apply listed_before_le, E.
      * rewrite Forall_forall in Hk. apply Hk, Hx.
    + destruct (not_listed_before_le _ _ E) as [Hle Htrans].
      constructor; [constructor; assumption|].
      constructor; [exact Hle|].
      rewrite Forall_forall in Hk. rewrite Forall_forall.
      intros x Hx. apply Htrans, Hk, Hx.
Qed.

Lemma table_set_ordered deviceId entry table :
  key_ordered table.*1 ->
  key_ordered (AppRest.table_set deviceId entry table).*1.
Proof.
  intros Hsorted.
  destruct (decide (deviceId = "__proto__")) as [->|Hproto]; [exact Hsorted|].
  destruct (decide (deviceId ∈ table.*1)) as [Hin|Hout].
  - rewrite table_set_keys_tracked by exact Hin. exact Hsorted.
  - rewrite table_set_new by assumption. apply table_add_ordered, Hsorted.
Qed.

Lemma table_set_numbers deviceId entry table :
  PrimFloat.is_nan (App.entry_power entry) = false ->
  table_numbers table -> table_numbers (AppRest.table_set deviceId entry table).
Proof.
  intros Hentry. unfold table_numbers, AppRest.table_set.
  destruct (String.eqb deviceId "__proto__"); [auto|].
  destruct (AppRest.table_get deviceId table) as [found|].
  - induction table as [|[k old] rest IH]; simpl; intros Htable; [constructor|].
    apply Forall_cons in Htable as [Hold Hrest].
    destruct (String.eqb k deviceId).
    + constructor; [exact Hentry | exact Hrest].
    + constructor; [exact Hold | apply IH, Hrest].
  - induction table as [|[k old] rest IH]; simpl; intros Htable.
    + constructor; [exact Hentry | constructor].
    + apply Forall_cons in Htable as [Hold Hrest].
      destruct (AppRest.listed_before k deviceId).
      * constructor; [exact Hold | apply IH, Hrest].
      * constructor; [exact Hentry|]. constructor; [exact Hold | exact Hrest].
Qed.

Lemma table_numbers_devices app table :
  App.powerDevices app = Some table -> table_numbers table ->
  Forall is_number (App.getPowerDevices app).
Proof.
  intros Htable Hnumbers. unfold App.getPowerDevices. rewrite Htable.
  clear Htable. unfold table_numbers in Hnumbers.
  induction Hnumbers as [|[k entry] rest Hentry _ IH]; simpl;
    [constructor|].
  constructor; [exact Hentry | exact IH].
Qed.

(** A key that is no array index goes last. *)
Lemma table_add_last deviceId entry table :
  AppRest.array_index deviceId = None ->
  AppRest.table_add deviceId entry table = (table ++ [(deviceId, entry)])%list.
Proof.
  intros Hname. induction table as [|[k old] rest IH]; simpl; [reflexivity|].
  unfold AppRest.listed_before. rewrite Hname. rewrite IH. reflexivity.
Qed.

Lemma built_table_cons device devices start :
  built_table (device :: devices) start =
  built_table devices
    (if has_measure_power device
     then AppRest.table_set (AppRest.homey_id device) (entry_of device) start
     else start).
Proof. reflexivity. Qed.

Lemma built_table_invariant devices : forall start,
  NoDup start.*1 -> key_ordered start.*1 -> table_numbers start ->
  NoDup (built_table devices start).*1 /\
  key_ordered (built_table devices start).*1 /\
  table_numbers (built_table devices start).
Proof.
  induction devices as [|device devices IH];
    intros start Hnodup Hsorted Hnumbers; [simpl; auto|].
  rewrite built_table_cons.
  destruct (has_measure_power device); [|apply IH; assumption].
  apply IH.
  - apply table_set_NoDup, Hnodup.
  - apply table_set_ordered, Hsorted.
  - apply table_set_numbers; [apply value_or_zero_number | exact Hnumbers].
Qed.

(** The entry of a key in the built table is that of the last listed device
    tracked under the key. *)
Lemma built_table_get devices : forall start key,
  AppRest.table_get key (built_table devices start) =
  match last (List.filter (tracked_as key) devices) with
  | Some device => Some (entry_of device)
  | None => AppRest.table_get key start
  end.
Proof.
  induction devices as [|device devices IH]; intros start key; [reflexivity|].
  rewrite built_table_cons, IH. cbn [List.filter]. unfold tracked_as at 2.
  destruct (has_measure_power device);
    [|rewrite andb_false_r; reflexivity].
  rewrite andb_true_r, table_get_set.
  destruct (String.eqb_spec (AppRest.homey_id device) key) as [->|Hne].
  - destruct (String.eqb key "__proto__"); [reflexivity|].
    cbn [andb negb]. rewrite last_cons.
    destruct (last (List.filter (tracked_as key) devices)); reflexivity.
  - cbn [andb].
    destruct (String.eqb (AppRest.homey_id device) "__proto__"); reflexivity.
Qed.

Lemma filter_nonempty {A} (f : A -> bool) l :
  List.filter f l <> [] <-> exists x, x ∈ l /\ f x = true.
Proof.
  split.
  - intros Hne. destruct (List.filter f l) as [|x rest] eqn:E; [contradiction|].
    exists x. rewrite list_elem_of_In. apply filter_In. rewrite E. left. reflexivity.
  - intros (x & Hx & Hf) E.
    assert (Hin : In x (List.filter f l)).
    { apply filter_In. split; [apply list_elem_of_In, Hx | exact Hf]. }
    rewrite E in Hin. exact Hin.
Qed.

Lemma table_get_is_Some deviceId table :
  is_Some (AppRest.table_get deviceId table) <-> deviceId ∈ table.*1.
Proof.
  destruct (AppRest.table_get deviceId table) as [entry|] eqn:Hget.
  - split; [intros _ | intros _; eexists; reflexivity].
    destruct (decide (deviceId ∈ table.*1)) as [Hin|Hout]; [exact Hin|].
    apply table_get_None in Hout. congruence.
  - apply table_get_None in Hget. split; [intros [x Hx]; discriminate | contradiction].
Qed.

(** With plain ids the table lists the tracked devices in the order of the
    device list. *)
Lemma built_table_listing devices : forall start,
  Forall (fun device => plain_id (AppRest.homey_id device)) devices ->
  NoDup (start.*1 ++
         map AppRest.homey_id (List.filter has_measure_power devices)) ->
  built_table devices start =
  (start ++ map (fun device => (AppRest.homey_id device, entry_of device))
                (List.filter has_measure_power devices))%list.
Proof.
  induction devices as [|device devices IH]; intros start Hnames Hnodup.
  - simpl. rewrite app_nil_r. reflexivity.
  - apply Forall_cons in Hnames as [[Hname Hproto] Hnames].
    rewrite built_table_cons. cbn [List.filter] in *.
    destruct (has_measure_power device); [|apply IH; assumption].
    cbn [map] in *.
    assert (Hout : AppRest.homey_id device ∉ start.*1).
    { apply NoDup_app in Hnodup as (_ & Hdisjoint & _).
      intros Hin. apply (Hdisjoint _ Hin). apply list_elem_of_here. }
    rewrite table_set_new by assumption.
    rewrite table_add_last by exact Hname.
    rewrite IH; [rewrite <- app_assoc; reflexivity | exact Hnames |].
    rewrite fmap_app, <- app_assoc. exact Hnodup.
Qed.

(** X22.  [initHomeyAPI] tracks exactly the listed devices that have the
    [measure_power] capability and an id other than [__proto__] (which names
    no entry), each under its id once and in the key order of an object.
    The entry of an id holds the name and the power of the last listed
    device with that id: the reported value when it is a number other than
    0, and 0 when it is missing, 0, -0 or [NaN]; so every power of
    [getPowerDevices] is a number.  With plain ids, no two of them equal,
    [getPowerDevices] lists the tracked devices in the order of the device
    list.  The API is marked ready when at least one device is listed; with
    none the table is empty and the ready flag as it was.  The history is
    not touched. *)
Theorem initHomeyAPI_table devices app :
  let app' := AppRest.initHomeyAPI devices app in
  exists table,
    App.powerDevices app' = Some table /\
    NoDup table.*1 /\
    key_ordered table.*1 /\
    (forall key, key ∈ table.*1 <->
       exists device, device ∈ devices /\ AppRest.homey_id device = key /\
                      "measure_power" ∈ AppRest.capabilities device /\
                      key <> "__proto__") /\
    (forall key,
       AppRest.table_get key table =
       entry_of <$> last (List.filter (tracked_as key) devices)) /\
    (forall device,
       stored_for (AppRest.measure_power_value device)
                  (App.entry_power (entry_of device))) /\
    Forall is_number (App.getPowerDevices app') /\
    (Forall (fun device => plain_id (AppRest.homey_id device)) devices ->
     NoDup (map AppRest.homey_id (List.filter has_measure_power devices)) ->
     App.getPowerDevices app' =
     map (fun device =>
            App.mkPowerDevice (AppRest.homey_id device)
              (AppRest.homey_name device)
              (AppRest.value_or_zero (AppRest.measure_power_value device)))
         (List.filter has_measure_power devices)) /\
    (devices = [] -> table = [] /\ App.apiReady app' = App.apiReady app) /\
    (devices <> [] -> App.apiReady app' = true) /\
    App.history app' = App.history app.
Proof.
  intros app'. subst app'. exists (built_table devices []).
  destruct (built_table_invariant devices [] (NoDup_nil_2)
              (SSorted_nil _) (Forall_nil_2 _))
    as (Hnodup & Hsorted & Hnumbers).
  assert (Hget : forall key,
    AppRest.table_get key (built_table devices []) =
    entry_of <$> last (List.filter (tracked_as key) devices)).
  { intros key. rewrite built_table_get.
    destruct (last (List.filter (tracked_as key) devices)); reflexivity. }
  assert (Htable :
    App.powerDevices (AppRest.initHomeyAPI devices app)
    = Some (built_table devices [])).
  { destruct devices; reflexivity. }
  split; [exact Htable|]. split; [exact Hnodup|]. split; [exact Hsorted|].
  split.
  { intros key. rewrite <- table_get_is_Some. rewrite Hget. rewrite fmap_is_Some.
    rewrite last_is_Some.
    rewrite filter_nonempty. unfold tracked_as, has_measure_power.
    split; intros (device & Hin & H); exists device; (split; [exact Hin|]).
    - apply andb_true_iff in H as [H Hproto].
      apply andb_true_iff in H as [Hid Hcap].
      split; [apply String.eqb_eq, Hid|].
      split; [exact (bool_decide_eq_true_1 _ Hcap)|].
      apply String.eqb_neq, negb_true_iff, Hproto.
    - destruct H as (Hid & Hcap & Hproto). rewrite !andb_true_iff.
      split; [split; [apply String.eqb_eq, Hid|]|].
      + apply bool_decide_eq_true_2; exact Hcap.
      + apply negb_true_iff, String.eqb_neq, Hproto. }
  split; [exact Hget|].
  split; [intros device; apply value_or_zero_stored|].
  split; [eapply table_numbers_devices; [exact Htable | exact Hnumbers]|].
  split.
  { intros Hnames Hunique. unfold App.getPowerDevices. rewrite Htable.
    rewrite (built_table_listing devices [] Hnames Hunique). simpl.
    rewrite map_map. reflexivity. }
  destruct devices as [|device devices].
  - split; [auto|]. split; [contradiction | reflexivity].
  - split; [discriminate|]. split; reflexivity.
Qed.

Lemma initHomeyAPI_table_witness :
  let devices :=
    [ AppRest.mkHomeyDevice "b" "Heater" ["onoff"; "measure_power"]
        (Some 2000%float);
      AppRest.mkHomeyDevice "c" "Lamp" ["onoff"] None;
      AppRest.mkHomeyDevice "d" "Plug" ["measure_power"] (Some nan) ] in
  let app' := AppRest.initHomeyAPI devices (App.mkState false None []) in
  App.getPowerDevices app' =
    [App.mkPowerDevice "b" "Heater" 2000; App.mkPowerDevice "d" "Plug" 0] /\
  Forall is_number (App.getPowerDevices app') /\
  App.apiReady app' = true.
Proof.
  intros devices app'.
  destruct (initHomeyAPI_table devices (App.mkState false None []))
    as (table & _ & _ & _ & _ & _ & _ & Hnumbers & Hlisting & _ & Hready & _).
  split; [|split; [exact Hnumbers | apply Hready; discriminate]].
  subst app'. rewrite Hlisting; [reflexivity | |].
  - repeat (constructor; [split; [reflexivity | discriminate]|]). constructor.
  - apply (bool_decide_unpack _). vm_compute. exact I.
Defined.

(** X23.  The power callback of a device stores [value || 0] under the id of
    the device: the value itself when it is a number other than 0, and 0
    when it is missing, 0, -0 or [NaN].  Afterwards the table gives that
    entry for the id and what it gave before for every other id.  An id that
    was tracked keeps its place in the list of ids; a new id is put in: last
    when it is no array index, and otherwise after the array indices smaller
    than it and before every other id.  The id [__proto__] names no entry
    and the table stays as it was.  Ids in the key order of an object stay
    in that order, unique ids stay unique, powers stay numbers, and the
    ready flag and the history are as before. *)
Theorem onPowerChange_table deviceId name value app table :
  App.powerDevices app = Some table ->
  let stored := AppRest.value_or_zero value in
  exists app' table',
    AppRest.onPowerChange deviceId name value app = Some app' /\
    App.powerDevices app' = Some table' /\
    stored_for value stored /\
    (deviceId <> "__proto__" ->
     AppRest.table_get deviceId table' = Some (App.mkPowerEntry name stored)) /\
    (deviceId = "__proto__" -> table' = table) /\
    (forall key, key <> deviceId ->
                 AppRest.table_get key table' = AppRest.table_get key table) /\
    (deviceId ∈ table.*1 -> table'.*1 = table.*1) /\
    (deviceId <> "__proto__" -> deviceId ∉ table.*1 ->
     exists before after,
       table.*1 = (before ++ after)%list /\
       table'.*1 = (before ++ deviceId :: after)%list /\
       (AppRest.array_index deviceId = None -> after = []) /\
       (forall n, AppRest.array_index deviceId = Some n ->
          Forall (fun k => exists m, AppRest.array_index k = Some m /\ m < n)
                 before /\
          (forall k m, head after = Some k ->
                       AppRest.array_index k = Some m -> n <= m))) /\
    (key_ordered table.*1 -> key_ordered table'.*1) /\
    (NoDup table.*1 -> NoDup table'.*1) /\
    (table_numbers table -> Forall is_number (App.getPowerDevices app')) /\
    App.apiReady app' = App.apiReady app /\
    App.history app' = App.history app.
Proof.
  intros Htable stored. subst stored. unfold AppRest.onPowerChange.
  rewrite Htable. simpl. do 2 eexists. split; [reflexivity|].
  split; [reflexivity|].
  split; [apply value_or_zero_stored|].
  split.
  { intros Hproto. rewrite table_get_set.
    rewrite (proj2 (String.eqb_neq _ _) Hproto), String.eqb_refl. reflexivity. }
  split; [intros ->; reflexivity|].
  split.
  { intros key Hne. rewrite table_get_set.
    destruct (String.eqb deviceId "__proto__"); [reflexivity|].
    destruct (String.eqb_spec deviceId key) as [->|]; [contradiction|reflexivity]. }
  split; [apply table_set_keys_tracked|].
  split.
  { intros Hproto Hout. rewrite table_set_new by assumption.
    destruct (table_add_place deviceId
                (App.mkPowerEntry name (AppRest.value_or_zero value)) table)
      as (before & after & -> & -> & Hbefore & Hafter).
    exists before.*1, after.*1. rewrite !fmap_app, fmap_cons.
    split; [reflexivity|]. split; [reflexivity|]. split.
    - intros Hname. destruct after as [|[k old] after]; [reflexivity|].
      specialize (Hafter k eq_refl). unfold AppRest.listed_before in Hafter.
      rewrite Hname in Hafter. discriminate.
    - intros n Hindex. split.
      + eapply Forall_impl; [exact Hbefore|]. intros k Hk. simpl in Hk.
        unfold AppRest.listed_before in Hk. rewrite Hindex in Hk.
        destruct (AppRest.array_index k) as [m|]; [|discriminate].
        exists m. split; [reflexivity | apply Z.ltb_lt, Hk].
      + intros k m Hhead Hm. specialize (Hafter k Hhead).
        unfold AppRest.listed_before in Hafter. rewrite Hindex, Hm in Hafter.
        apply Z.ltb_ge, Hafter. }
  split; [apply table_set_ordered|].
  split; [apply table_set_NoDup|].
  split; [|split; reflexivity].
  intros Hnumbers. eapply table_numbers_devices; [reflexivity|].
  apply table_set_numbers; [apply value_or_zero_number | exact Hnumbers].
Qed.

Lemma onPowerChange_table_witness :
  let app := AppRest.initHomeyAPI
    [AppRest.mkHomeyDevice "b" "Heater" ["onoff"; "measure_power"]
       (Some 2000%float)]
    (App.mkState false None []) in
  exists app',
    AppRest.onPowerChange "1" "Plug" (Some 150%float) app = Some app' /\
    App.getPowerDevices app' =
      [App.mkPowerDevice "1" "Plug" 150; App.mkPowerDevice "b" "Heater" 2000] /\
    (App.getPowerDevices <$> AppRest.onPowerChange "b" "Heater" (Some nan) app') =
      Some [App.mkPowerDevice "1" "Plug" 150; App.mkPowerDevice "b" "Heater" 0] /\
    exists table',
      App.powerDevices app' = Some table' /\
      AppRest.table_get "1" table' = Some (App.mkPowerEntry "Plug" 150) /\
      AppRest.table_get "b" table' = Some (App.mkPowerEntry "Heater" 2000).
Proof.
  intros app.
  destruct (onPowerChange_table "1" "Plug" (Some 150%float) app
              [("b", App.mkPowerEntry "Heater" 2000)] eq_refl)
    as (app' & table' & Hrun & Htable & _ & Hget & _ & Hother & _).
  exists app'. split; [exact Hrun|].
  injection Hrun as <-.
  split; [reflexivity|]. split; [reflexivity|].
  exists table'. split; [exact Htable|].
  split; [apply Hget; discriminate|].
  rewrite Hother by discriminate. reflexivity.
Defined.
